(** * The vehicle lifecycle handlers of [src/routes/vehicles-route.ts]

    A shallow embedding of the six handlers mounted on [vehiclesRoute]
    (list, create, get, update, soft-delete, restore) over an explicit
    store, and the properties the specification states about them.

    The store is the pair of tables the handlers read and write.  A table
    is the list of its rows in the order the store returns them, because
    the handlers depend on that order ([res[0]], [existing.find]).  A
    handler is an [async] function: it either resolves with a response or
    throws (an exception the handler does not catch), and every statement
    it awaited before has been applied to the store, since no handler
    opens a transaction. *)

From stdpp Require Import base strings gmap.
From Stdlib Require Import ZArith List Bool Sorted.
Import ListNotations.

Open Scope Z_scope.
Open Scope string_scope.

(** ** Data model *)

(** Modelled from the spec: the declaration of [vehiclesTable]
    ([db/schema/vehicles-schema]) is not among the sources.  A vehicle is
    identified by a UUID and an integer surrogate id and has a VIN, an
    owner reference and a nullable [deletedAt] (spec, data model); the
    handlers read [id], [uuid], [vin], [ownerId], [deletedAt] and write
    [ownerId], [updatedAt], [deletedAt].  Every other column is carried in
    [columns], by column name.  Timestamps are milliseconds since the
    epoch; a nullable column is an [option]. *)
Record Vehicle := mkVehicle {
  id : Z;
  uuid : string;
  vin : string;
  ownerId : string;
  columns : gmap string string;
  createdAt : Z;
  updatedAt : Z;
  deletedAt : option Z
}.

(** Modelled from the spec: the declaration of [ownershipTransfersTable]
    ([db/schema/ownership-transfers]) is not among the sources.  A
    transfer records (vehicleId or vin, fromUserId, toUserId,
    transferredAt): the reactivation path of create fills [vehicleId], the
    update handler fills [vin]. *)
Record OwnershipTransfer := mkOwnershipTransfer {
  vehicleId : option Z;
  transferVin : option string;
  fromUserId : string;
  toUserId : string;
  transferredAt : Z
}.

(** Modelled from the spec: the type of the user the session middleware
    puts in the request context ([AppBindings] of [lib/types]) is not
    among the sources.  A user has an id and a role; the handlers compare
    [role] with the literals ["user"] and ["admin"], so it is kept a
    string. *)
Record User := mkUser {
  user_id : string;
  role : string
}.

(** The store: the two tables behind [db]. *)
Record Db := mkDb {
  vehiclesTable : list Vehicle;
  ownershipTransfersTable : list OwnershipTransfer
}.

(** What a request takes from outside the handler: the clock
    ([new Date()], and the store's clock for a timestamp default) and the
    values the store generates for an inserted vehicle row (its surrogate
    [id] and its random [uuid]). *)
Record Env := mkEnv {
  now : Z;
  generatedId : Z;
  randomUUID : string
}.

(** What the declaration of the vehicles table decides for the handlers.
    The declaration is not among the sources, so both choices are kept
    open: whether [vin] carries a unique constraint, and whether
    [updatedAt] is declared with [$onUpdate(() => new Date())] as in the
    sibling tables. *)
Record VehiclesDecl := mkVehiclesDecl {
  vin_unique : bool;
  updatedAt_onUpdate : bool
}.

(** Modelled from the spec: [zVehicleInsertSchema] ([zod/z-vehicles]) is
    not among the sources.  The validated JSON body of create is a vehicle
    payload including the VIN; the rest of it is descriptive columns. *)
Record VehicleInsert := mkVehicleInsert {
  insert_vin : string;
  insert_columns : gmap string string
}.

(** The object given to [.values(...)] of an insert into the vehicles
    table ([insertVehicleSchema]): the body of create and the owner. *)
Record VehicleValues := mkVehicleValues {
  values_vin : string;
  values_ownerId : string;
  values_columns : gmap string string
}.

(** The validated JSON body of update: [updateVehicleSchema] without
    [uuid], [createdAt], [updatedAt], every key optional. *)
Record VehiclePatch := mkVehiclePatch {
  patch_vin : option string;
  patch_ownerId : option string;
  patch_deletedAt : option (option Z);
  patch_columns : gmap string string
}.

(** ** Responses *)

Inductive Json :=
| ErrorJson (error : string)
| MessageJson (message : string) (vehicleUUID : string)
| VehiclesJson (vehicles : list Vehicle)
| VehicleJson (vehicle : Vehicle)
| RestoredJson (vehicle : Vehicle)
| CreatedJson (vehicle : Vehicle).

Record Response := json {
  status : Z;
  body : Json
}.

(** ** Asynchronous handlers over the store *)

Inductive Completion (A : Type) :=
| Resolved (a : A)
| Threw.
Arguments Resolved {A} a.
Arguments Threw {A}.

Definition Async (A : Type) : Type := Db -> Completion A * Db.

Definition resolve {A} (a : A) : Async A := fun db => (Resolved a, db).

Definition throw {A} : Async A := fun db => (Threw, db).

Definition await {A B} (m : Async A) (k : A -> Async B) : Async B :=
  fun db =>
    match m db with
    | (Resolved a, db') => k a db'
    | (Threw, db') => (Threw, db')
    end.

Notation "'let*' x ':=' m 'in' k" := (await m (fun x => k))
  (at level 10, x name, m at level 100, k at level 200).

(** ** Conditions of a [where] clause *)

(** The drizzle operators the handlers use.  [and_] skips an [undefined]
    operand, as drizzle's [and] does.  [eq_uuid] compares spellings: the
    UUIDs of rows and of requests are taken in the one spelling the store
    prints them in. *)
#[warnings="-register-all"]
Inductive Condition :=
| eq_id (n : Z)
| eq_uuid (s : string)
| eq_vin (s : string)
| eq_ownerId (s : string)
| isNull_deletedAt
| and_ (c1 c2 : option Condition).

Fixpoint holds (c : Condition) (v : Vehicle) : bool :=
  match c with
  | eq_id n => Z.eqb (id v) n
  | eq_uuid s => String.eqb (uuid v) s
  | eq_vin s => String.eqb (vin v) s
  | eq_ownerId s => String.eqb (ownerId v) s
  | isNull_deletedAt =>
      match deletedAt v with None => true | Some _ => false end
  | and_ c1 c2 =>
      match c1 with Some c => holds c v | None => true end &&
      match c2 with Some c => holds c v | None => true end
  end.

(** A statement without [.where(...)] applies to every row. *)
Definition matches (w : option Condition) (v : Vehicle) : bool :=
  match w with
  | Some c => holds c v
  | None => true
  end.

(** ** The object given to [.set(...)]

    The shape of [updateVehicleSchema]: every column of the table but the
    generated [id], each optional.  The descriptive columns are set
    through the change they make to a row's [columns]. *)
Record VehicleUpdate := mkVehicleUpdate {
  set_uuid : option string;
  set_vin : option string;
  set_ownerId : option string;
  set_columns : option (gmap string string -> gmap string string);
  set_createdAt : option Z;
  set_updatedAt : option Z;
  set_deletedAt : option (option Z)
}.

Definition no_values (s : VehicleUpdate) : bool :=
  match set_uuid s, set_vin s, set_ownerId s, set_columns s,
        set_createdAt s, set_updatedAt s, set_deletedAt s with
  | None, None, None, None, None, None, None => true
  | _, _, _, _, _, _, _ => false
  end.

Section Store.

Variable decl : VehiclesDecl.
Variable env : Env.

(** The row an [update] statement leaves in place of [r].  A column the
    object does not name keeps its value, except [updatedAt] when the
    table declares [$onUpdate] for it. *)
Definition apply_set (s : VehicleUpdate) (r : Vehicle) : Vehicle :=
  {| id := id r;
     uuid := default (uuid r) (set_uuid s);
     vin := default (vin r) (set_vin s);
     ownerId := default (ownerId r) (set_ownerId s);
     columns := match set_columns s with
                | Some f => f (columns r)
                | None => columns r
                end;
     createdAt := default (createdAt r) (set_createdAt s);
     updatedAt := match set_updatedAt s with
                  | Some t => t
                  | None => if updatedAt_onUpdate decl then now env
                            else updatedAt r
                  end;
     deletedAt := default (deletedAt r) (set_deletedAt s) |}.

(** ** Statements *)

(** [db.select().from(vehiclesTable).where(w)].  A select the store
    refuses (a path parameter that is no UUID at all) is outside the
    model: what is stated of a request's answer is stated of a handler
    that resolved. *)
Definition select_from_vehicles (w : option Condition) : Async (list Vehicle) :=
  fun db => (Resolved (List.filter (matches w) (vehiclesTable db)), db).

(** [db.insert(ownershipTransfersTable).values(t)] *)
Definition insert_ownershipTransfer (t : OwnershipTransfer) : Async unit :=
  fun db =>
    (Resolved tt,
     mkDb (vehiclesTable db) (ownershipTransfersTable db ++ [t])).

Definition vin_count (s : string) (tbl : list Vehicle) : nat :=
  length (List.filter (holds (eq_vin s)) tbl).

(** Modelled from the spec: the column defaults belong to the table
    declaration, which is not among the sources.  The row the store makes
    of inserted values has a generated [id] and a generated [uuid] (a
    fresh UUID), timestamps of the time of the insert, as the sibling
    tables declare them, and no [deletedAt]. *)
Definition inserted_row (values : VehicleValues) : Vehicle :=
  {| id := generatedId env;
     uuid := randomUUID env;
     vin := values_vin values;
     ownerId := values_ownerId values;
     columns := values_columns values;
     createdAt := now env;
     updatedAt := now env;
     deletedAt := None |}.

(** [db.insert(vehiclesTable).values(values).returning()]: the store
    refuses the row when [vin] is unique and already present. *)
Definition insert_vehicle (values : VehicleValues) : Async (list Vehicle) :=
  fun db =>
    let row := inserted_row values in
    if vin_unique decl && existsb (holds (eq_vin (vin row))) (vehiclesTable db)
    then (Threw, db)
    else (Resolved [row],
          mkDb (vehiclesTable db ++ [row]) (ownershipTransfersTable db)).

(** [db.update(vehiclesTable).set(s).where(w).returning()]: drizzle throws
    on an object without values; the store refuses the statement when
    [vin] is unique and a row whose [vin] changes would share it.  The
    rows are rewritten where they stand; the sources do not fix the order
    in which the store returns rows after an update. *)
Definition update_vehicles (s : VehicleUpdate) (w : option Condition)
  : Async (list Vehicle) :=
  fun db =>
    let tbl := vehiclesTable db in
    let tbl' := map (fun r => if matches w r then apply_set s r else r) tbl in
    if no_values s then (Threw, db)
    else if vin_unique decl &&
            existsb (fun r => matches w r
                              && negb (String.eqb (vin (apply_set s r)) (vin r))
                              && (1 <? vin_count (vin (apply_set s r)) tbl')%nat)
                    tbl
    then (Threw, db)
    else (Resolved (map (apply_set s) (List.filter (matches w) tbl)),
          mkDb tbl' (ownershipTransfersTable db)).

End Store.

(** ** The handlers of [vehiclesRoute] *)

Section Routes.

Variable decl : VehiclesDecl.
Variable env : Env.

Definition unauthorized : Response := json 401 (ErrorJson "Unauthorized").

Definition vehicle_not_found : Response :=
  json 404 (ErrorJson "Vehicle not found").

(** [GET /] *)
Definition get_vehicles (user : option User) : Async Response :=
  match user with
  | None => resolve unauthorized
  | Some user =>
      let* vehicles :=
        select_from_vehicles
          (Some (and_ (if String.eqb (role user) "user"
                       then Some (eq_ownerId (user_id user))
                       else None)
                      (Some isNull_deletedAt))) in
      resolve (json 200 (VehiclesJson vehicles))
  end.

(** [existing.find(v => v.deletedAt !== null)] *)
Definition find_deleted (existing : list Vehicle) : option Vehicle :=
  List.find (fun v => negb (holds isNull_deletedAt v)) existing.

(** [insertOwnershipTransferSchema.parse({ vehicleId, fromUserId, toUserId,
    transferredAt })] of the reactivation path. *)
Definition ownershipTransfer (user : User) (deletedVehicle : Vehicle)
  : OwnershipTransfer :=
  {| vehicleId := Some (id deletedVehicle);
     transferVin := None;
     fromUserId := ownerId deletedVehicle;
     toUserId := user_id user;
     transferredAt := now env |}.

(** [updateVehicleSchema.parse({ ...deletedVehicle, ownerId: user.id,
    deletedAt: null, updatedAt: new Date() })] *)
Definition updatedVehicle (user : User) (deletedVehicle : Vehicle)
  : VehicleUpdate :=
  {| set_uuid := Some (uuid deletedVehicle);
     set_vin := Some (vin deletedVehicle);
     set_ownerId := Some (user_id user);
     set_columns := Some (fun _ => columns deletedVehicle);
     set_createdAt := Some (createdAt deletedVehicle);
     set_updatedAt := Some (now env);
     set_deletedAt := Some None |}.

(** [insertVehicleSchema.parse({ ...vehicle, ownerId: user.id })] *)
Definition validatedVehicle (user : User) (vehicle : VehicleInsert)
  : VehicleValues :=
  {| values_vin := insert_vin vehicle;
     values_ownerId := user_id user;
     values_columns := insert_columns vehicle |}.

(** [POST /] *)
Definition post_vehicles (user : option User) (vehicle : VehicleInsert)
  : Async Response :=
  match user with
  | None => resolve unauthorized
  | Some user =>
      let* existing :=
        select_from_vehicles (Some (eq_vin (insert_vin vehicle))) in
      match find_deleted existing with
      | Some deletedVehicle =>
          let* _ :=
            if negb (String.eqb (ownerId deletedVehicle) (user_id user))
            then insert_ownershipTransfer (ownershipTransfer user deletedVehicle)
            else resolve tt in
          let* res :=
            update_vehicles decl env (updatedVehicle user deletedVehicle)
                            (Some (eq_id (id deletedVehicle))) in
          match res with
          | updated :: _ => resolve (json 200 (RestoredJson updated))
          | [] => throw
          end
      | None =>
          let* res := insert_vehicle decl env (validatedVehicle user vehicle) in
          match res with
          | created :: _ => resolve (json 201 (CreatedJson created))
          | [] => throw
          end
      end
  end.

(** [GET /:vehicleUUID] *)
Definition get_vehicle (user : option User) (vehicleUUID : string)
  : Async Response :=
  match user with
  | None => resolve unauthorized
  | Some user =>
      let* res := select_from_vehicles (Some (eq_uuid vehicleUUID)) in
      match res with
      | [] => resolve vehicle_not_found
      | vehicle :: _ =>
          if negb (String.eqb (role user) "admin")
             && negb (String.eqb (ownerId vehicle) (user_id user))
          then resolve unauthorized
          else resolve (json 200 (VehicleJson vehicle))
      end
  end.

(** [updateVehicleSchema.parse({ ...vehicleBody })] *)
Definition validatedVehicleUpdate (vehicleBody : VehiclePatch) : VehicleUpdate :=
  {| set_uuid := None;
     set_vin := patch_vin vehicleBody;
     set_ownerId := patch_ownerId vehicleBody;
     set_columns := if bool_decide (patch_columns vehicleBody = ∅) then None
                    else Some (fun c => patch_columns vehicleBody ∪ c);
     set_createdAt := None;
     set_updatedAt := None;
     set_deletedAt := patch_deletedAt vehicleBody |}.

(** [vehicleBody.ownerId && vehicleBody.ownerId !== vehicle.ownerId]: the
    key is present, its string is not empty, and it names another owner. *)
Definition changes_owner (vehicleBody : VehiclePatch) (vehicle : Vehicle)
  : option string :=
  match patch_ownerId vehicleBody with
  | Some o =>
      if negb (String.eqb o "") && negb (String.eqb o (ownerId vehicle))
      then Some o else None
  | None => None
  end.

(** The statement that ends [PATCH /:vehicleUUID]. *)
Definition patch_apply (vehicleUUID : string) (vehicleBody : VehiclePatch)
  : Async Response :=
  let* res :=
    update_vehicles decl env (validatedVehicleUpdate vehicleBody)
                    (Some (eq_uuid vehicleUUID)) in
  match res with
  | updatedVehicle :: _ => resolve (json 200 (VehicleJson updatedVehicle))
  | [] => throw
  end.

(** [PATCH /:vehicleUUID] *)
Definition patch_vehicle (user : option User) (vehicleUUID : string)
  (vehicleBody : VehiclePatch) : Async Response :=
  match user with
  | None => resolve unauthorized
  | Some user =>
      let* res := select_from_vehicles (Some (eq_uuid vehicleUUID)) in
      match res with
      | [] => resolve vehicle_not_found
      | vehicle :: _ =>
          if negb (String.eqb (role user) "admin")
             && negb (String.eqb (ownerId vehicle) (user_id user))
          then resolve unauthorized
          else
            match changes_owner vehicleBody vehicle with
            | Some newOwnerId =>
                if negb (String.eqb (role user) "admin")
                then resolve
                       (json 403 (ErrorJson "Only admins can transfer ownership"))
                else
                  let* _ :=
                    insert_ownershipTransfer
                      {| vehicleId := None;
                         transferVin := Some (vin vehicle);
                         fromUserId := ownerId vehicle;
                         toUserId := newOwnerId;
                         transferredAt := now env |} in
                  patch_apply vehicleUUID vehicleBody
            | None => patch_apply vehicleUUID vehicleBody
            end
      end
  end.

(** [updateVehicleSchema.parse({ deletedAt: new Date() })] *)
Definition softDeleteVehicle : VehicleUpdate :=
  {| set_uuid := None; set_vin := None; set_ownerId := None;
     set_columns := None; set_createdAt := None; set_updatedAt := None;
     set_deletedAt := Some (Some (now env)) |}.

(** [DELETE /:vehicleUUID] *)
Definition delete_vehicle (user : option User) (vehicleUUID : string)
  : Async Response :=
  match user with
  | None => resolve unauthorized
  | Some user =>
      let* res := select_from_vehicles (Some (eq_uuid vehicleUUID)) in
      match res with
      | [] => resolve vehicle_not_found
      | vehicle :: _ =>
          if negb (String.eqb (ownerId vehicle) (user_id user))
          then resolve unauthorized
          else
            let* _ := update_vehicles decl env softDeleteVehicle None in
            resolve (json 200 (MessageJson "Vehicle soft deleted successfully"
                                           (uuid vehicle)))
      end
  end.

(** [updateVehicleSchema.parse({ deletedAt: null, updatedAt: new Date() })] *)
Definition restoredVehicleUpdate : VehicleUpdate :=
  {| set_uuid := None; set_vin := None; set_ownerId := None;
     set_columns := None; set_createdAt := None;
     set_updatedAt := Some (now env);
     set_deletedAt := Some None |}.

(** [POST /:vehicleUUID/restore] *)
Definition restore_vehicle (user : option User) (vehicleUUID : string)
  : Async Response :=
  match user with
  | None => resolve unauthorized
  | Some user =>
      let* res := select_from_vehicles (Some (eq_uuid vehicleUUID)) in
      match res with
      | [] => resolve vehicle_not_found
      | vehicle :: _ =>
          if negb (String.eqb (ownerId vehicle) (user_id user))
          then resolve unauthorized
          else
            let* res :=
              update_vehicles decl env restoredVehicleUpdate
                              (Some (eq_uuid vehicleUUID)) in
            match res with
            | restoredVehicle :: _ =>
                resolve (json 200 (RestoredJson restoredVehicle))
            | [] => throw
            end
      end
  end.

End Routes.

(** ** The route table

    The requests [vehiclesRoute] answers, each with its validated input:
    the method and path select the handler. *)
Inductive Request :=
| GET_vehicles
| POST_vehicles (vehicle : VehicleInsert)
| GET_vehicle (vehicleUUID : string)
| PATCH_vehicle (vehicleUUID : string) (vehicleBody : VehiclePatch)
| DELETE_vehicle (vehicleUUID : string)
| POST_restore (vehicleUUID : string).

Definition vehiclesRoute (decl : VehiclesDecl) (env : Env)
  (user : option User) (req : Request) : Async Response :=
  match req with
  | GET_vehicles => get_vehicles user
  | POST_vehicles vehicle => post_vehicles decl env user vehicle
  | GET_vehicle vehicleUUID => get_vehicle user vehicleUUID
  | PATCH_vehicle vehicleUUID vehicleBody =>
      patch_vehicle decl env user vehicleUUID vehicleBody
  | DELETE_vehicle vehicleUUID => delete_vehicle decl env user vehicleUUID
  | POST_restore vehicleUUID => restore_vehicle decl env user vehicleUUID
  end.

(** A request as the server receives it: what the middleware resolved,
    the clock and the store's generated values at that time, and the
    request itself. *)
Record Call := mkCall {
  call_env : Env;
  call_user : option User;
  call_request : Request
}.

(** The store after a sequence of requests, each handled to its end
    before the next begins. *)
Fixpoint serve (decl : VehiclesDecl) (calls : list Call) (db : Db) : Db :=
  match calls with
  | [] => db
  | c :: calls' =>
      serve decl calls'
            (snd (vehiclesRoute decl (call_env c) (call_user c)
                                (call_request c) db))
  end.

(** The UUID a request names, if it names one. *)
Definition target (req : Request) : option string :=
  match req with
  | GET_vehicles | POST_vehicles _ => None
  | GET_vehicle X | PATCH_vehicle X _ | DELETE_vehicle X | POST_restore X =>
      Some X
  end.

(** The authorization policy read as one decision: may caller [u] make
    request [req] on vehicle [v]?  An admin may view and update any
    vehicle; anyone else only the vehicles they own; soft-delete and
    restore look at the owner only. *)
Definition allowed (u : User) (req : Request) (v : Vehicle) : bool :=
  match req with
  | GET_vehicles | POST_vehicles _ => true
  | GET_vehicle _ | PATCH_vehicle _ _ =>
      String.eqb (role u) "admin" || String.eqb (ownerId v) (user_id u)
  | DELETE_vehicle _ | POST_restore _ =>
      String.eqb (ownerId v) (user_id u)
  end.

Definition is_read (req : Request) : bool :=
  match req with
  | GET_vehicles | GET_vehicle _ => true
  | _ => false
  end.

(** ** Reading the store as the specification does *)

(** The row a handler takes for a UUID: [res[0]] of the select by UUID. *)
Definition lookup_uuid (vehicleUUID : string) (tbl : list Vehicle)
  : option Vehicle :=
  head (List.filter (matches (Some (eq_uuid vehicleUUID))) tbl).

(** The rows the specification lists for an admin: not soft-deleted. *)
Definition active (v : Vehicle) : bool :=
  match deletedAt v with None => true | Some _ => false end.


(** The rows of the table that carry a VIN, in table order. *)
Definition with_vin (v : string) (tbl : list Vehicle) : list Vehicle :=
  List.filter (matches (Some (eq_vin v))) tbl.

(** A soft-deleted row taken over by a caller: the row with the caller as
    owner, [deletedAt] cleared and [updatedAt] refreshed. *)
Definition reactivated (env : Env) (user : User) (v : Vehicle) : Vehicle :=
  {| id := id v; uuid := uuid v; vin := vin v; ownerId := user_id user;
     columns := columns v; createdAt := createdAt v;
     updatedAt := now env; deletedAt := None |}.

(** Two versions of a row that differ at most in [updatedAt] and
    [deletedAt]. *)
Definition same_but_marks (r r' : Vehicle) : Prop :=
  id r' = id r /\ uuid r' = uuid r /\ vin r' = vin r
  /\ ownerId r' = ownerId r /\ columns r' = columns r
  /\ createdAt r' = createdAt r.



(** ** Sample stores *)

Module Sample.

Definition decl : VehiclesDecl :=
  {| vin_unique := true; updatedAt_onUpdate := true |}.

Definition alice : User := {| user_id := "1"; role := "user" |}.
Definition bob : User := {| user_id := "2"; role := "user" |}.
Definition root : User := {| user_id := "9"; role := "admin" |}.

Definition car (n : Z) (u v o : string) (d : option Z) : Vehicle :=
  {| id := n; uuid := u; vin := v; ownerId := o; columns := ∅;
     createdAt := 10; updatedAt := 10; deletedAt := d |}.

(** Alice's and Bob's vehicles, both in use. *)
Definition two_active : Db :=
  {| vehiclesTable := [car 1 "a" "WVWZZZ1" "1" None;
                       car 2 "b" "WVWZZZ2" "2" None];
     ownershipTransfersTable := [] |}.

(** Alice's vehicle soft-deleted, Bob's in use. *)
Definition one_deleted : Db :=
  {| vehiclesTable := [car 1 "a" "WVWZZZ1" "1" (Some 20);
                       car 2 "b" "WVWZZZ2" "2" None];
     ownershipTransfersTable := [] |}.

Definition at_30 : Env := {| now := 30; generatedId := 3; randomUUID := "c" |}.
Definition at_40 : Env := {| now := 40; generatedId := 4; randomUUID := "d" |}.

End Sample.

(** A store whose rows carry UUIDs in their canonical spelling. *)
Module Garage.

Definition uuid_a : string := "11111111-1111-4111-8111-111111111111".
Definition uuid_b : string := "22222222-2222-4222-8222-222222222222".
Definition uuid_unknown : string := "99999999-9999-4999-8999-999999999999".


Definition vehicles : Db :=
  {| vehiclesTable := [Sample.car 1 uuid_a "WVWZZZ1" "1" (Some 20);
                       Sample.car 2 uuid_b "WVWZZZ2" "2" None];
     ownershipTransfersTable := [] |}.


End Garage.

(** ** The sidebar group of the web client
    ([packages/web/src/components/nav-group.tsx]) *)

Module NavGroup.

(** An entry of [items]; the icon only matters to the rendering. *)
Record Item := mkItem {
  title : string;
  url : string
}.

(** [`${vehicleId}`]: the route parameter is read with [strict: false]
    and may be [undefined], which a template literal prints as such. *)
Definition template (vehicleId : option string) : string :=
  match vehicleId with
  | Some s => s
  | None => "undefined"
  end.

(** [isFooter ? item.url : `/app/${vehicleId}${item.url}`] *)
Definition fullHref (isFooter : bool) (vehicleId : option string)
  (item : Item) : string :=
  if isFooter then url item
  else String.append "/app/" (String.append (template vehicleId) (url item)).

(** [items.find(item => currentPathname === fullHref)] of the effect. *)
Definition activeItem (isFooter : bool) (vehicleId : option string)
  (currentPathname : string) (items : list Item) : option Item :=
  List.find (fun item => String.eqb currentPathname
                                    (fullHref isFooter vehicleId item))
            items.

(** The effect: the value of [pathnameAtom] after it has run. *)
Definition effect (isFooter : bool) (vehicleId : option string)
  (currentPathname : string) (items : list Item) (pathname : string)
  : string :=
  match activeItem isFooter vehicleId currentPathname items with
  | Some item => title item
  | None => pathname
  end.

(** A rendered menu entry: its text, the target of its link, and whether
    its button is active. *)
Record Entry := mkEntry {
  text : string;
  to : string;
  isActive : bool
}.

(** [items.map(item => ...)] of the rendering. *)
Definition menu (isFooter : bool) (vehicleId : option string)
  (currentPathname : string) (items : list Item) : list Entry :=
  map (fun item =>
         {| text := title item;
            to := fullHref isFooter vehicleId item;
            isActive := String.eqb currentPathname
                                   (fullHref isFooter vehicleId item) |})
      items.

End NavGroup.

(** ** The default diagnostic session of the diagnostics page
    ([packages/web/src/routes/_authenticated/app/$vehicleId/diagnostics/index.tsx]) *)

Module Diagnostics.

(** A diagnostic session as the page reads it: its UUID and the time
    [new Date(createdAt).getTime()] of its creation, in milliseconds. *)
Record Session := mkSession {
  uuid : string;
  createdAt : Z
}.

(** [[...diagnosticsData].sort((a, b) => time(b) - time(a))]: newest
    first.  [Array.prototype.sort] is stable, and a stable sort is
    determined by its comparator, so it is written as the insertion sort
    that keeps sessions of one time in their order. *)
Fixpoint insertNewest (a : Session) (sorted : list Session) : list Session :=
  match sorted with
  | [] => [a]
  | b :: sorted' =>
      if Z.leb (createdAt b) (createdAt a) then a :: b :: sorted'
      else b :: insertNewest a sorted'
  end.

Definition sortedDiagnostics (diagnosticsData : list Session) : list Session :=
  fold_right insertNewest [] diagnosticsData.

(** The effect that selects a session: the id it passes to
    [setSelectedDiagnosticId], if it calls it.  [diagnosticsData] is
    [None] while the query has no data; [selectedDiagnosticId] is the
    query parameter, [""] when absent. *)
Definition selectDefault (isLoadingDiagnostics : bool)
  (diagnosticsData : option (list Session)) (selectedDiagnosticId : string)
  : option string :=
  match diagnosticsData with
  | Some data =>
      if negb isLoadingDiagnostics
         && (0 <? length data)%nat
         && String.eqb selectedDiagnosticId ""
      then match sortedDiagnostics data with
           | newest :: _ => Some (uuid newest)
           | [] => None
           end
      else None
  | None => None
  end.

End Diagnostics.

(** ** Facts about the statements *)

(** Run a handler up to the rows its first select returned, given as an
    equation on the filtered table. *)
Ltac fetch Hf :=
  unfold await, select_from_vehicles, resolve; rewrite Hf.

Lemma existsb_none {A} (f : A -> bool) (l : list A) :
  (forall x, In x l -> f x = false) -> existsb f l = false.
Proof.
  induction l as [|a l IH]; intros H; simpl; [reflexivity|].
  rewrite (H a (or_introl eq_refl)). simpl.
  apply IH. intros x Hx. apply H. right. exact Hx.
Qed.

Lemma string_eqb_neq (a b : string) : a <> b -> String.eqb a b = false.
Proof. intros H. apply String.eqb_neq. exact H. Qed.

Lemma lookup_uuid_Some X tbl v :
  lookup_uuid X tbl = Some v ->
  exists rest, List.filter (matches (Some (eq_uuid X))) tbl = v :: rest.
Proof.
  unfold lookup_uuid. destruct (List.filter _ tbl) as [|a rest]; simpl.
  - discriminate.
  - intros [= ->]. exists rest. reflexivity.
Qed.

Lemma lookup_uuid_In X tbl v :
  lookup_uuid X tbl = Some v -> In v tbl /\ uuid v = X.
Proof.
  intros H. destruct (lookup_uuid_Some _ _ _ H) as [rest Hf].
  assert (Hin : In v (List.filter (matches (Some (eq_uuid X))) tbl))
    by (rewrite Hf; left; reflexivity).
  apply filter_In in Hin. destruct Hin as [Hin Hm]. simpl in Hm.
  apply String.eqb_eq in Hm. split; assumption.
Qed.

Lemma lookup_uuid_None X tbl :
  lookup_uuid X tbl = None <-> (forall v, In v tbl -> uuid v <> X).
Proof.
  unfold lookup_uuid. split.
  - intros H v Hin Hu.
    assert (Hv : In v (List.filter (matches (Some (eq_uuid X))) tbl)).
    { apply filter_In. split; [exact Hin|]. simpl. apply String.eqb_eq. exact Hu. }
    destruct (List.filter _ tbl); [destruct Hv | discriminate].
  - intros H. destruct (List.filter _ tbl) as [|a rest] eqn:Hf; [reflexivity|].
    assert (Ha : In a (List.filter (matches (Some (eq_uuid X))) tbl))
      by (rewrite Hf; left; reflexivity).
    apply filter_In in Ha. destruct Ha as [Hin Hm]. simpl in Hm.
    apply String.eqb_eq in Hm. destruct (H a Hin Hm).
Qed.

(** Where [uuid] is a key of the table, the row fetched for the UUID of a
    row of the table is that row. *)
Lemma lookup_uuid_key tbl v :
  NoDup (map uuid tbl) -> In v tbl -> lookup_uuid (uuid v) tbl = Some v.
Proof.
  unfold lookup_uuid. induction tbl as [|a tbl IH]; simpl; [intros _ []|].
  intros Hnd Hin. inversion Hnd as [|x l Hnotin Hnd']; subst.
  destruct Hin as [-> | Hin].
  - rewrite String.eqb_refl. reflexivity.
  - destruct (String.eqb_spec (uuid a) (uuid v)) as [Heq|_].
    + destruct Hnotin. rewrite Heq. apply in_map. exact Hin.
    + apply IH; assumption.
Qed.

(** An update that does not name [vin] is never refused by the store. *)
Lemma update_vehicles_keeps_vin decl env s w db :
  no_values s = false -> set_vin s = None ->
  update_vehicles decl env s w db =
  (Resolved (map (apply_set decl env s) (List.filter (matches w) (vehiclesTable db))),
   mkDb (map (fun r => if matches w r then apply_set decl env s r else r)
             (vehiclesTable db))
        (ownershipTransfersTable db)).
Proof.
  intros Hnv Hvin. unfold update_vehicles. rewrite Hnv.
  rewrite existsb_none; [rewrite andb_false_r; reflexivity|].
  intros r _. unfold apply_set at 1. simpl. rewrite Hvin. simpl.
  rewrite String.eqb_refl. simpl. rewrite andb_false_r. reflexivity.
Qed.

(** ** List *)




(** X20. The list handler tests the role against ["user"] only: a caller
    of any other role, not only [admin], is shown every row that is not
    soft-deleted. *)
Lemma get_vehicles_other_role (db : Db) (u : User) :
  role u <> "user" ->
  get_vehicles (Some u) db =
  (Resolved (json 200 (VehiclesJson (List.filter active (vehiclesTable db)))), db).
Proof.
  intros Hrole. unfold get_vehicles, await, select_from_vehicles, resolve.
  rewrite (string_eqb_neq _ _ Hrole). reflexivity.
Qed.

(** ** Get by UUID *)

(** C10. [GET /vehicles/:uuid] does not look at [deletedAt]: when the row
    fetched for the UUID is soft-deleted and the caller owns it or is an
    admin, the handler answers 200 with that row, its [deletedAt] still
    set; and for an authenticated caller it answers 404 exactly when the
    table has no row with that UUID. *)
Theorem get_vehicle_returns_soft_deleted (db : Db) (u : User) (X : string) :
  (forall v t,
      lookup_uuid X (vehiclesTable db) = Some v ->
      deletedAt v = Some t ->
      ownerId v = user_id u \/ role u = "admin" ->
      get_vehicle (Some u) X db = (Resolved (json 200 (VehicleJson v)), db))
  /\ ((exists r db', get_vehicle (Some u) X db = (Resolved r, db')
                     /\ status r = 404)
      <-> (forall v, In v (vehiclesTable db) -> uuid v <> X)).
Proof.
  split.
  - intros v t Hv _ Hwho.
    destruct (lookup_uuid_Some _ _ _ Hv) as [rest Hf].
    unfold get_vehicle. fetch Hf.
    destruct Hwho as [Hown | Hadm].
    + rewrite Hown, String.eqb_refl, andb_false_r. reflexivity.
    + rewrite Hadm. reflexivity.
  - rewrite <- lookup_uuid_None. unfold lookup_uuid.
    unfold get_vehicle, await, select_from_vehicles, resolve.
    destruct (List.filter _ (vehiclesTable db)) as [|v rest]; simpl.
    + split; [reflexivity|]. intros _. eexists _, _. split; reflexivity.
    + split; [|discriminate]. intros (r & db' & Heq & Hst).
      destruct (negb (String.eqb (role u) "admin")
                && negb (String.eqb (ownerId v) (user_id u)));
        injection Heq as <- _; discriminate.
Qed.

Lemma get_vehicle_returns_soft_deleted_witness :
  get_vehicle (Some Sample.alice) "a" Sample.one_deleted =
    (Resolved (json 200 (VehicleJson (Sample.car 1 "a" "WVWZZZ1" "1" (Some 20)))),
     Sample.one_deleted)
  /\ get_vehicle (Some Sample.root) "a" Sample.one_deleted =
    (Resolved (json 200 (VehicleJson (Sample.car 1 "a" "WVWZZZ1" "1" (Some 20)))),
     Sample.one_deleted).
Proof.
  split.
  - apply (proj1 (get_vehicle_returns_soft_deleted
                    Sample.one_deleted Sample.alice "a") _ 20);
      [reflexivity | reflexivity | left; reflexivity].
  - apply (proj1 (get_vehicle_returns_soft_deleted
                    Sample.one_deleted Sample.root "a") _ 20);
      [reflexivity | reflexivity | right; reflexivity].
Defined.

(** ** Soft-delete and restore: who may *)

(** C7. [DELETE /vehicles/:uuid] and [POST /vehicles/:uuid/restore] compare
    the caller's id with the owner of the fetched row and nothing else: a
    caller who is not the owner gets 401 Unauthorized from both and the
    store is left as it was, whatever the caller's role, [admin] included;
    and whenever either answers 200 the caller is the owner. *)
Theorem delete_restore_owner_only
  (decl : VehiclesDecl) (env : Env) (db : Db) (u : User) (X : string)
  (v : Vehicle) :
  lookup_uuid X (vehiclesTable db) = Some v ->
  (ownerId v <> user_id u ->
     delete_vehicle decl env (Some u) X db =
       (Resolved (json 401 (ErrorJson "Unauthorized")), db)
     /\ restore_vehicle decl env (Some u) X db =
       (Resolved (json 401 (ErrorJson "Unauthorized")), db))
  /\ (forall r db',
        delete_vehicle decl env (Some u) X db = (Resolved r, db') ->
        status r = 200 -> ownerId v = user_id u)
  /\ (forall r db',
        restore_vehicle decl env (Some u) X db = (Resolved r, db') ->
        status r = 200 -> ownerId v = user_id u).
Proof.
  intros Hv. destruct (lookup_uuid_Some _ _ _ Hv) as [rest Hf].
  split; [|split].
  - intros Hne. unfold delete_vehicle, restore_vehicle. fetch Hf.
    rewrite (string_eqb_neq _ _ Hne). split; reflexivity.
  - intros r db'.
    unfold delete_vehicle. fetch Hf.
    destruct (String.eqb (ownerId v) (user_id u)) eqn:He.
    + intros _ _. apply String.eqb_eq. exact He.
    + simpl. intros [= <- _]. discriminate.
  - intros r db'.
    unfold restore_vehicle. fetch Hf.
    destruct (String.eqb (ownerId v) (user_id u)) eqn:He.
    + intros _ _. apply String.eqb_eq. exact He.
    + simpl. intros [= <- _]. discriminate.
Qed.

Lemma delete_restore_owner_only_witness :
  delete_vehicle Sample.decl Sample.at_30 (Some Sample.root) "a" Sample.one_deleted =
    (Resolved (json 401 (ErrorJson "Unauthorized")), Sample.one_deleted)
  /\ restore_vehicle Sample.decl Sample.at_30 (Some Sample.root) "a" Sample.one_deleted =
    (Resolved (json 401 (ErrorJson "Unauthorized")), Sample.one_deleted).
Proof.
  apply (proj1 (delete_restore_owner_only Sample.decl Sample.at_30
                  Sample.one_deleted Sample.root "a" _ eq_refl)).
  discriminate.
Defined.

(** ** Soft-delete and restore: what they write *)

Lemma filter_map_stable {A} (p : A -> bool) (f : A -> A) (l : list A) :
  (forall x, p (f x) = p x) ->
  List.filter p (map f l) = map f (List.filter p l).
Proof.
  intros Hp. induction l as [|a l IH]; simpl; [reflexivity|].
  rewrite Hp. destruct (p a); simpl; rewrite IH; reflexivity.
Qed.

Lemma filter_map_where {A} (p : A -> bool) (f : A -> A) (l : list A) :
  (forall x, p (f x) = p x) ->
  List.filter p (map (fun x => if p x then f x else x) l)
  = map f (List.filter p l).
Proof.
  intros Hp. induction l as [|a l IH]; simpl; [reflexivity|].
  destruct (p a) eqn:Ha; simpl.
  - rewrite Hp, Ha, IH. reflexivity.
  - rewrite Ha, IH. reflexivity.
Qed.

Lemma apply_set_keeps_uuid decl env s X r :
  set_uuid s = None ->
  matches (Some (eq_uuid X)) (apply_set decl env s r)
  = matches (Some (eq_uuid X)) r.
Proof. intros Hs. simpl. rewrite Hs. reflexivity. Qed.

(** What a soft-delete by the owner does: the statement has no [where],
    so [softDeleteVehicle] is applied to every row of the table. *)
Lemma delete_vehicle_by_owner decl env db u X v :
  lookup_uuid X (vehiclesTable db) = Some v ->
  ownerId v = user_id u ->
  delete_vehicle decl env (Some u) X db =
  (Resolved (json 200 (MessageJson "Vehicle soft deleted successfully" (uuid v))),
   mkDb (map (apply_set decl env (softDeleteVehicle env)) (vehiclesTable db))
        (ownershipTransfersTable db)).
Proof.
  intros Hv Hown. destruct (lookup_uuid_Some _ _ _ Hv) as [rest Hf].
  unfold delete_vehicle. fetch Hf. rewrite Hown, String.eqb_refl. simpl.
  rewrite update_vehicles_keeps_vin by reflexivity. reflexivity.
Qed.

(** What a restore by the owner does: the rows with the UUID get
    [restoredVehicleUpdate] and the first of them is returned. *)
Lemma restore_vehicle_by_owner decl env db u X v :
  lookup_uuid X (vehiclesTable db) = Some v ->
  ownerId v = user_id u ->
  restore_vehicle decl env (Some u) X db =
  (Resolved (json 200 (RestoredJson
                         (apply_set decl env (restoredVehicleUpdate env) v))),
   mkDb (map (fun r => if matches (Some (eq_uuid X)) r
                       then apply_set decl env (restoredVehicleUpdate env) r
                       else r)
             (vehiclesTable db))
        (ownershipTransfersTable db)).
Proof.
  intros Hv Hown. destruct (lookup_uuid_Some _ _ _ Hv) as [rest Hf].
  unfold restore_vehicle. fetch Hf. rewrite Hown, String.eqb_refl. simpl.
  rewrite update_vehicles_keeps_vin by reflexivity.
  cbv beta iota. rewrite Hf. reflexivity.
Qed.

(** C1. The soft-delete of Alice's vehicle ["a"] by Alice, in a table that
    also holds Bob's vehicle ["b"]: the handler answers 200, and the
    update it issues carries no [where], so Bob's row is soft-deleted
    too.  The claim (only the row with the given UUID changes) fails
    here. *)
Theorem delete_vehicle_marks_other_rows :
  delete_vehicle Sample.decl Sample.at_30 (Some Sample.alice) "a"
                 Sample.two_active
  = (Resolved (json 200 (MessageJson "Vehicle soft deleted successfully" "a")),
     {| vehiclesTable :=
          [ {| id := 1; uuid := "a"; vin := "WVWZZZ1"; ownerId := "1";
               columns := ∅; createdAt := 10; updatedAt := 30;
               deletedAt := Some 30 |};
            {| id := 2; uuid := "b"; vin := "WVWZZZ2"; ownerId := "2";
               columns := ∅; createdAt := 10; updatedAt := 30;
               deletedAt := Some 30 |} ];
        ownershipTransfersTable := [] |})
  /\ lookup_uuid "b" (vehiclesTable Sample.two_active)
     = Some (Sample.car 2 "b" "WVWZZZ2" "2" None)
  /\ lookup_uuid "b"
       (vehiclesTable
          (snd (delete_vehicle Sample.decl Sample.at_30 (Some Sample.alice) "a"
                               Sample.two_active)))
     <> Some (Sample.car 2 "b" "WVWZZZ2" "2" None).
Proof.
  split; [reflexivity|]. split; [reflexivity|]. discriminate.
Qed.

(** C8. Restore after soft-delete, both by the owner: the soft-delete
    answers 200, and the restore that follows answers 200 with the record
    of the fetched row as it was before the soft-delete in every field
    but [deletedAt], which is null, and [updatedAt], which is the time of
    the restore; that record is the row the store then holds for the
    UUID. *)
Theorem restore_after_delete_round_trip
  (decl : VehiclesDecl) (env1 env2 : Env) (db : Db) (u : User) (X : string)
  (v : Vehicle) :
  lookup_uuid X (vehiclesTable db) = Some v ->
  ownerId v = user_id u ->
  let restored :=
    {| id := id v; uuid := uuid v; vin := vin v; ownerId := ownerId v;
       columns := columns v; createdAt := createdAt v;
       updatedAt := now env2; deletedAt := None |} in
  exists db1 db2,
    delete_vehicle decl env1 (Some u) X db =
      (Resolved (json 200 (MessageJson "Vehicle soft deleted successfully"
                                       (uuid v))), db1)
    /\ restore_vehicle decl env2 (Some u) X db1 =
      (Resolved (json 200 (RestoredJson restored)), db2)
    /\ lookup_uuid X (vehiclesTable db2) = Some restored.
Proof.
  intros Hv Hown restored.
  destruct (lookup_uuid_Some _ _ _ Hv) as [rest Hf].
  set (sd := apply_set decl env1 (softDeleteVehicle env1)).
  assert (Hv1 : lookup_uuid X (map sd (vehiclesTable db)) = Some (sd v)).
  { unfold lookup_uuid.
    rewrite filter_map_stable
      by (intros x; apply apply_set_keeps_uuid; reflexivity).
    rewrite Hf. reflexivity. }
  eexists _, _. split; [apply (delete_vehicle_by_owner _ _ _ _ _ _ Hv Hown)|].
  split.
  - rewrite (restore_vehicle_by_owner decl env2 _ u X (sd v)); [reflexivity| |].
    + exact Hv1.
    + exact Hown.
  - cbn [vehiclesTable]. unfold lookup_uuid.
    rewrite (filter_map_where (matches (Some (eq_uuid X))))
      by (intros x; apply apply_set_keeps_uuid; reflexivity).
    rewrite filter_map_stable
      by (intros x; apply apply_set_keeps_uuid; reflexivity).
    rewrite Hf. reflexivity.
Qed.

Lemma restore_after_delete_round_trip_witness :
  exists db1 db2,
    delete_vehicle Sample.decl Sample.at_30 (Some Sample.alice) "a"
                   Sample.two_active =
      (Resolved (json 200 (MessageJson "Vehicle soft deleted successfully" "a")),
       db1)
    /\ restore_vehicle Sample.decl Sample.at_40 (Some Sample.alice) "a" db1 =
      (Resolved (json 200 (RestoredJson
         {| id := 1; uuid := "a"; vin := "WVWZZZ1"; ownerId := "1";
            columns := ∅; createdAt := 10; updatedAt := 40;
            deletedAt := None |})), db2)
    /\ lookup_uuid "a" (vehiclesTable db2) =
       Some {| id := 1; uuid := "a"; vin := "WVWZZZ1"; ownerId := "1";
               columns := ∅; createdAt := 10; updatedAt := 40;
               deletedAt := None |}.
Proof.
  exact (restore_after_delete_round_trip Sample.decl Sample.at_30 Sample.at_40
           Sample.two_active Sample.alice "a"
           (Sample.car 1 "a" "WVWZZZ1" "1" None) eq_refl eq_refl).
Defined.

(** ** Create *)

Lemma find_first {A} (f : A -> bool) (l : list A) (d : A) :
  List.find f l = Some d ->
  exists l1 l2, l = (l1 ++ d :: l2)%list /\ f d = true
                /\ (forall x, In x l1 -> f x = false).
Proof.
  induction l as [|a l IH]; simpl; [discriminate|].
  destruct (f a) eqn:Ha.
  - intros [= ->]. exists [], l. split; [reflexivity|]. split; [exact Ha|].
    intros x [].
  - intros H. destruct (IH H) as (l1 & l2 & -> & Hd & Hl1).
    exists (a :: l1), l2. split; [reflexivity|]. split; [exact Hd|].
    intros x [<- | Hx]; [exact Ha | apply Hl1; exact Hx].
Qed.

Lemma find_deleted_Some existing d :
  find_deleted existing = Some d -> In d existing /\ deletedAt d <> None.
Proof.
  intros H. apply find_some in H. destruct H as [Hin Hd]. split; [exact Hin|].
  simpl in Hd. destruct (deletedAt d); [discriminate | discriminate].
Qed.

Lemma find_deleted_None existing :
  find_deleted existing = None <->
  (forall r, In r existing -> deletedAt r = None).
Proof.
  split.
  - intros H r Hr. pose proof (find_none _ _ H r Hr) as Hn. simpl in Hn.
    destruct (deletedAt r); [discriminate | reflexivity].
  - intros H. destruct (find_deleted existing) as [d|] eqn:Hd; [|reflexivity].
    destruct (find_deleted_Some _ _ Hd) as [Hin Hne].
    destruct (Hne (H d Hin)).
Qed.

Lemma with_vin_In v tbl r : In r (with_vin v tbl) <-> In r tbl /\ vin r = v.
Proof.
  unfold with_vin. rewrite filter_In. simpl. rewrite String.eqb_eq. reflexivity.
Qed.

(** [id] is the key of the table: two rows with one [id] are one row. *)
Lemma key_id tbl d r :
  NoDup (map id tbl) -> In d tbl -> In r tbl -> id r = id d -> r = d.
Proof.
  induction tbl as [|a tbl IH]; simpl; [intros _ []|].
  intros Hnd Hd Hr Hid. inversion Hnd as [|x l Hnotin Hnd']; subst.
  destruct Hd as [<- | Hd], Hr as [<- | Hr].
  - reflexivity.
  - destruct Hnotin. rewrite <- Hid. apply in_map. exact Hr.
  - destruct Hnotin. rewrite Hid. apply in_map. exact Hd.
  - apply IH; assumption.
Qed.

Lemma updatedVehicle_apply decl env u d r :
  id r = id d ->
  apply_set decl env (updatedVehicle env u d) r = reactivated env u d.
Proof. intros Hid. unfold apply_set, reactivated. simpl. rewrite Hid. reflexivity. Qed.

(** The update of the reactivation path, in a table keyed by [id]. *)
Lemma update_vehicles_reactivation decl env u d db :
  NoDup (map id (vehiclesTable db)) -> In d (vehiclesTable db) ->
  update_vehicles decl env (updatedVehicle env u d) (Some (eq_id (id d))) db =
  (Resolved (map (apply_set decl env (updatedVehicle env u d))
                 (List.filter (matches (Some (eq_id (id d)))) (vehiclesTable db))),
   mkDb (map (fun r => if Z.eqb (id r) (id d) then reactivated env u d else r)
             (vehiclesTable db))
        (ownershipTransfersTable db)).
Proof.
  intros Hkey Hd. unfold update_vehicles. cbn [no_values updatedVehicle].
  simpl no_values. cbv iota.
  rewrite existsb_none.
  - rewrite andb_false_r. f_equal. f_equal. apply map_ext. intros r. simpl.
    destruct (Z.eqb_spec (id r) (id d)) as [Hid|]; [|reflexivity].
    apply updatedVehicle_apply. exact Hid.
  - intros r Hr. simpl matches.
    destruct (Z.eqb_spec (id r) (id d)) as [Hid|]; [|reflexivity].
    rewrite (key_id _ _ _ Hkey Hd Hr Hid). simpl.
    rewrite String.eqb_refl. reflexivity.
Qed.

Lemma update_vehicles_transfers decl env s w db :
  ownershipTransfersTable (snd (update_vehicles decl env s w db))
  = ownershipTransfersTable db.
Proof.
  unfold update_vehicles. destruct (no_values s); [reflexivity|].
  destruct (vin_unique decl && _); reflexivity.
Qed.

(** The reactivation path of create, in a table keyed by [id]: the first
    soft-deleted row with the VIN is handed to the caller, a transfer is
    logged when the owner changes, and no other row is written. *)
Lemma post_vehicles_reactivates decl env db u vehicle d :
  NoDup (map id (vehiclesTable db)) ->
  find_deleted (with_vin (insert_vin vehicle) (vehiclesTable db)) = Some d ->
  post_vehicles decl env (Some u) vehicle db =
  (Resolved (json 200 (RestoredJson (reactivated env u d))),
   mkDb (map (fun r => if Z.eqb (id r) (id d) then reactivated env u d else r)
             (vehiclesTable db))
        (ownershipTransfersTable db ++
           if negb (String.eqb (ownerId d) (user_id u))
           then [ownershipTransfer env u d] else [])%list).
Proof.
  intros Hkey Hfind.
  destruct (find_deleted_Some _ _ Hfind) as [Hin _].
  apply with_vin_In in Hin. destruct Hin as [Hin _].
  unfold post_vehicles, await at 1, select_from_vehicles.
  fold (with_vin (insert_vin vehicle) (vehiclesTable db)). rewrite Hfind.
  unfold await at 1.
  set (db1 := snd ((if negb (String.eqb (ownerId d) (user_id u))
                    then insert_ownershipTransfer (ownershipTransfer env u d)
                    else resolve tt) db)).
  assert (Hstep : (if negb (String.eqb (ownerId d) (user_id u))
                   then insert_ownershipTransfer (ownershipTransfer env u d)
                   else resolve tt) db = (Resolved tt, db1)).
  { unfold db1. destruct (negb _); reflexivity. }
  rewrite Hstep. unfold await.
  assert (Htbl : vehiclesTable db1 = vehiclesTable db).
  { unfold db1. destruct (negb _); reflexivity. }
  assert (Htr : ownershipTransfersTable db1 =
                (ownershipTransfersTable db ++
                   if negb (String.eqb (ownerId d) (user_id u))
                   then [ownershipTransfer env u d] else [])%list).
  { unfold db1. destruct (negb _); simpl; [reflexivity|].
    rewrite app_nil_r. reflexivity. }
  rewrite update_vehicles_reactivation
    by (rewrite Htbl; assumption).
  rewrite Htbl, Htr.
  destruct (List.filter (matches (Some (eq_id (id d)))) (vehiclesTable db))
    as [|r0 rest] eqn:Hf.
  - exfalso. assert (Hd : In d (List.filter (matches (Some (eq_id (id d))))
                                            (vehiclesTable db))).
    { apply filter_In. split; [exact Hin|]. simpl. apply Z.eqb_refl. }
    rewrite Hf in Hd. destruct Hd.
  - assert (Hr0 : In r0 (List.filter (matches (Some (eq_id (id d))))
                                     (vehiclesTable db)))
      by (rewrite Hf; left; reflexivity).
    apply filter_In in Hr0. destruct Hr0 as [_ Hid]. simpl in Hid.
    apply Z.eqb_eq in Hid. cbn [map]. unfold resolve.
    do 4 f_equal. apply updatedVehicle_apply. exact Hid.
Qed.

(** C3. [POST /vehicles] with a VIN that a soft-deleted row carries, in a
    table keyed by [id]: the handler answers 200 with [restored: true] and
    the record of the matched row (the first soft-deleted row with the
    VIN) with [deletedAt] null and the caller as owner, and that record is
    what the store then holds for the matched row's [id]. *)
Theorem post_vehicles_restores_soft_deleted
  (decl : VehiclesDecl) (env : Env) (db : Db) (u : User)
  (vehicle : VehicleInsert) (r : Vehicle) :
  NoDup (map id (vehiclesTable db)) ->
  In r (vehiclesTable db) ->
  vin r = insert_vin vehicle ->
  deletedAt r <> None ->
  exists d updated db',
    find_deleted (with_vin (insert_vin vehicle) (vehiclesTable db)) = Some d
    /\ In d (vehiclesTable db) /\ vin d = insert_vin vehicle
    /\ deletedAt d <> None
    /\ post_vehicles decl env (Some u) vehicle db
       = (Resolved (json 200 (RestoredJson updated)), db')
    /\ updated = reactivated env u d
    /\ deletedAt updated = None
    /\ ownerId updated = user_id u
    /\ In updated (vehiclesTable db')
    /\ (forall x, In x (vehiclesTable db') -> id x = id d -> x = updated).
Proof.
  intros Hkey Hr Hvin Hdel.
  destruct (find_deleted (with_vin (insert_vin vehicle) (vehiclesTable db)))
    as [d|] eqn:Hfind.
  - destruct (find_deleted_Some _ _ Hfind) as [Hd Hdd].
    apply with_vin_In in Hd. destruct Hd as [Hd Hdv].
    exists d, (reactivated env u d). eexists.
    split; [reflexivity|]. split; [exact Hd|]. split; [exact Hdv|].
    split; [exact Hdd|].
    split; [apply post_vehicles_reactivates; assumption|].
    split; [reflexivity|]. split; [reflexivity|]. split; [reflexivity|].
    cbn [vehiclesTable]. split.
    + apply in_map_iff. exists d. rewrite Z.eqb_refl. split; [reflexivity|exact Hd].
    + intros x Hx Hid. apply in_map_iff in Hx. destruct Hx as (y & Hy & _).
      destruct (Z.eqb_spec (id y) (id d)) as [_|Hne]; [symmetry; exact Hy|].
      subst x. destruct (Hne Hid).
  - exfalso. apply Hdel.
    apply (proj1 (find_deleted_None _) Hfind r).
    apply with_vin_In. split; assumption.
Qed.

Lemma post_vehicles_restores_soft_deleted_witness :
  exists d updated db',
    find_deleted (with_vin "WVWZZZ1" (vehiclesTable Sample.one_deleted)) = Some d
    /\ In d (vehiclesTable Sample.one_deleted) /\ vin d = "WVWZZZ1"
    /\ deletedAt d <> None
    /\ post_vehicles Sample.decl Sample.at_30 (Some Sample.bob)
                     {| insert_vin := "WVWZZZ1"; insert_columns := ∅ |}
                     Sample.one_deleted
       = (Resolved (json 200 (RestoredJson updated)), db')
    /\ updated = reactivated Sample.at_30 Sample.bob d
    /\ deletedAt updated = None
    /\ ownerId updated = "2"
    /\ In updated (vehiclesTable db')
    /\ (forall x, In x (vehiclesTable db') -> id x = id d -> x = updated).
Proof.
  apply (post_vehicles_restores_soft_deleted Sample.decl Sample.at_30
           Sample.one_deleted Sample.bob
           {| insert_vin := "WVWZZZ1"; insert_columns := ∅ |}
           (Sample.car 1 "a" "WVWZZZ1" "1" (Some 20))).
  - simpl. repeat constructor; simpl; intuition discriminate.
  - left. reflexivity.
  - reflexivity.
  - discriminate.
Defined.

(** C4. In the reactivation path of [POST /vehicles], whatever becomes of
    the update that follows: when the owner of the matched row is not the
    caller, the transfers table gains exactly one record, at its end, from
    that owner to the caller; when the owner is the caller, the transfers
    table is left as it was. *)
Theorem post_vehicles_logs_one_transfer
  (decl : VehiclesDecl) (env : Env) (db : Db) (u : User)
  (vehicle : VehicleInsert) (d : Vehicle) :
  find_deleted (with_vin (insert_vin vehicle) (vehiclesTable db)) = Some d ->
  let db' := snd (post_vehicles decl env (Some u) vehicle db) in
  (ownerId d <> user_id u ->
     ownershipTransfersTable db' =
     (ownershipTransfersTable db ++
        [ {| vehicleId := Some (id d); transferVin := None;
             fromUserId := ownerId d; toUserId := user_id u;
             transferredAt := now env |} ])%list)
  /\ (ownerId d = user_id u ->
        ownershipTransfersTable db' = ownershipTransfersTable db).
Proof.
  intros Hfind db'.
  assert (Hsnd : forall db1,
    ownershipTransfersTable
      (snd (await (update_vehicles decl env (updatedVehicle env u d)
                                   (Some (eq_id (id d))))
                  (fun res => match res with
                              | updated :: _ =>
                                  resolve (json 200 (RestoredJson updated))
                              | [] => throw
                              end) db1))
    = ownershipTransfersTable db1).
  { intros db1. unfold await.
    pose proof (update_vehicles_transfers decl env (updatedVehicle env u d)
                  (Some (eq_id (id d))) db1) as Ht.
    destruct (update_vehicles decl env _ _ db1) as [[[|x l]|] db2];
      simpl in Ht |- *; exact Ht. }
  split; intros Hown;
    unfold db', post_vehicles, await at 1, select_from_vehicles;
    fold (with_vin (insert_vin vehicle) (vehiclesTable db)); rewrite Hfind;
    unfold await at 1.
  - rewrite (string_eqb_neq _ _ Hown). cbn [negb insert_ownershipTransfer].
    rewrite Hsnd. reflexivity.
  - rewrite Hown, String.eqb_refl. cbn [negb resolve].
    rewrite Hsnd. reflexivity.
Qed.

Lemma post_vehicles_logs_one_transfer_witness :
  ownershipTransfersTable
    (snd (post_vehicles Sample.decl Sample.at_30 (Some Sample.bob)
                        {| insert_vin := "WVWZZZ1"; insert_columns := ∅ |}
                        Sample.one_deleted))
  = [ {| vehicleId := Some 1; transferVin := None; fromUserId := "1";
         toUserId := "2"; transferredAt := 30 |} ]
  /\ ownershipTransfersTable
       (snd (post_vehicles Sample.decl Sample.at_30 (Some Sample.alice)
                           {| insert_vin := "WVWZZZ1"; insert_columns := ∅ |}
                           Sample.one_deleted))
     = [].
Proof.
  split.
  - apply (proj1 (post_vehicles_logs_one_transfer Sample.decl Sample.at_30
                    Sample.one_deleted Sample.bob
                    {| insert_vin := "WVWZZZ1"; insert_columns := ∅ |}
                    (Sample.car 1 "a" "WVWZZZ1" "1" (Some 20)) eq_refl)).
    discriminate.
  - apply (proj2 (post_vehicles_logs_one_transfer Sample.decl Sample.at_30
                    Sample.one_deleted Sample.alice
                    {| insert_vin := "WVWZZZ1"; insert_columns := ∅ |}
                    (Sample.car 1 "a" "WVWZZZ1" "1" (Some 20)) eq_refl)).
    reflexivity.
Defined.

Lemma existsb_with_vin s tbl :
  existsb (holds (eq_vin s)) tbl =
  match with_vin s tbl with [] => false | _ :: _ => true end.
Proof.
  unfold with_vin. induction tbl as [|a tbl IH]; simpl; [reflexivity|].
  destruct (String.eqb (vin a) s); simpl; [reflexivity | exact IH].
Qed.

(** The insert path of create: taken whenever no row with the VIN is
    soft-deleted; the store refuses the row only when [vin] is unique and
    some row carries the VIN already. *)
Lemma post_vehicles_inserts decl env db u vehicle :
  find_deleted (with_vin (insert_vin vehicle) (vehiclesTable db)) = None ->
  post_vehicles decl env (Some u) vehicle db =
  match with_vin (insert_vin vehicle) (vehiclesTable db) with
  | _ :: _ =>
      if vin_unique decl then (Threw, db)
      else (Resolved (json 201 (CreatedJson
                        (inserted_row env (validatedVehicle u vehicle)))),
            mkDb (vehiclesTable db ++ [inserted_row env (validatedVehicle u vehicle)])
                 (ownershipTransfersTable db))
  | [] =>
      (Resolved (json 201 (CreatedJson
                   (inserted_row env (validatedVehicle u vehicle)))),
       mkDb (vehiclesTable db ++ [inserted_row env (validatedVehicle u vehicle)])
            (ownershipTransfersTable db))
  end.
Proof.
  intros Hfind. unfold post_vehicles, await at 1, select_from_vehicles.
  fold (with_vin (insert_vin vehicle) (vehiclesTable db)). rewrite Hfind.
  unfold await, insert_vehicle. cbn [vin inserted_row validatedVehicle values_vin].
  rewrite existsb_with_vin.
  destruct (with_vin (insert_vin vehicle) (vehiclesTable db)).
  - rewrite andb_false_r. reflexivity.
  - rewrite andb_true_r. destruct (vin_unique decl); reflexivity.
Qed.




(** C9. [POST /vehicles] when rows carry the VIN.  If none of them is
    soft-deleted, the handler rejects nothing: it runs the insert of a new
    row with that VIN, which ends in 201 [created: true] unless the store
    itself refuses a second row with the VIN, a failure the handler does
    not catch.  An answer of 200 [restored: true] is given only when a
    soft-deleted row carries the VIN; and then the row reactivated is the
    first soft-deleted one in table order, every row before it with the
    VIN being in use, and in a table keyed by [id] the rows with another
    [id] are left as they were. *)
Theorem post_vehicles_active_vin_collision
  (decl : VehiclesDecl) (env : Env) (db : Db) (u : User)
  (vehicle : VehicleInsert) :
  let existing := with_vin (insert_vin vehicle) (vehiclesTable db) in
  let created := inserted_row env (validatedVehicle u vehicle) in
  (find_deleted existing = None ->
     existing <> [] ->
     vin created = insert_vin vehicle
     /\ post_vehicles decl env (Some u) vehicle db =
        if vin_unique decl then (Threw, db)
        else (Resolved (json 201 (CreatedJson created)),
              mkDb (vehiclesTable db ++ [created]) (ownershipTransfersTable db)))
  /\ (forall r db',
        post_vehicles decl env (Some u) vehicle db = (Resolved r, db') ->
        status r = 200 ->
        exists d, find_deleted existing = Some d /\ deletedAt d <> None)
  /\ (forall d,
        find_deleted existing = Some d ->
        (exists before after,
            existing = (before ++ d :: after)%list
            /\ (forall x, In x before -> deletedAt x = None))
        /\ (NoDup (map id (vehiclesTable db)) ->
            exists db',
              post_vehicles decl env (Some u) vehicle db
              = (Resolved (json 200 (RestoredJson (reactivated env u d))), db')
              /\ vehiclesTable db' =
                 map (fun x => if Z.eqb (id x) (id d)
                               then reactivated env u d else x)
                     (vehiclesTable db))).
Proof.
  intros existing created. split; [|split].
  - intros Hfind Hne. split; [reflexivity|].
    rewrite post_vehicles_inserts by exact Hfind.
    fold existing. destruct existing; [destruct Hne; reflexivity | reflexivity].
  - intros r db' Hpost Hst.
    destruct (find_deleted existing) as [d|] eqn:Hfind.
    + exists d. split; [reflexivity|].
      apply (find_deleted_Some _ _ Hfind).
    + exfalso. rewrite post_vehicles_inserts in Hpost by exact Hfind.
      fold existing in Hpost.
      destruct existing; [|destruct (vin_unique decl)];
        try discriminate; injection Hpost as <- _; discriminate.
  - intros d Hfind. split.
    + destruct (find_first _ _ _ Hfind) as (l1 & l2 & Hl & _ & Hl1).
      exists l1, l2. split; [exact Hl|].
      intros x Hx. specialize (Hl1 x Hx). simpl in Hl1.
      destruct (deletedAt x); [discriminate | reflexivity].
    + intros Hkey. eexists. split.
      * apply post_vehicles_reactivates; assumption.
      * reflexivity.
Qed.

Lemma post_vehicles_active_vin_collision_witness :
  post_vehicles Sample.decl Sample.at_30 (Some Sample.alice)
                {| insert_vin := "WVWZZZ2"; insert_columns := ∅ |}
                Sample.two_active
  = (Threw, Sample.two_active)
  /\ post_vehicles {| vin_unique := false; updatedAt_onUpdate := true |}
                   Sample.at_30 (Some Sample.alice)
                   {| insert_vin := "WVWZZZ2"; insert_columns := ∅ |}
                   Sample.two_active
     = (Resolved (json 201 (CreatedJson
          {| id := 3; uuid := "c"; vin := "WVWZZZ2"; ownerId := "1";
             columns := ∅; createdAt := 30; updatedAt := 30;
             deletedAt := None |})),
        mkDb (vehiclesTable Sample.two_active ++
                [ {| id := 3; uuid := "c"; vin := "WVWZZZ2"; ownerId := "1";
                     columns := ∅; createdAt := 30; updatedAt := 30;
                     deletedAt := None |} ])
             []).
Proof.
  split.
  - apply (proj1 (post_vehicles_active_vin_collision Sample.decl Sample.at_30
                    Sample.two_active Sample.alice
                    {| insert_vin := "WVWZZZ2"; insert_columns := ∅ |}));
      [reflexivity | discriminate].
  - apply (proj1 (post_vehicles_active_vin_collision
                    {| vin_unique := false; updatedAt_onUpdate := true |}
                    Sample.at_30 Sample.two_active Sample.alice
                    {| insert_vin := "WVWZZZ2"; insert_columns := ∅ |}));
      [reflexivity | discriminate].
Defined.

(** ** Update: changing the owner *)

(** Against C6 as stated.  A non-admin caller who is not the owner of the
    vehicle asks for another owner: Bob, on Alice's vehicle ["a"].  The
    handler answers 401 Unauthorized at the ownership check and never
    reaches the check that answers 403. *)
Lemma patch_vehicle_non_owner_unauthorized :
  role Sample.bob <> "admin"
  /\ lookup_uuid "a" (vehiclesTable Sample.two_active)
     = Some (Sample.car 1 "a" "WVWZZZ1" "1" None)
  /\ Some "2" <> Some (ownerId (Sample.car 1 "a" "WVWZZZ1" "1" None))
  /\ patch_vehicle Sample.decl Sample.at_30 (Some Sample.bob) "a"
       {| patch_vin := None; patch_ownerId := Some "2";
          patch_deletedAt := None; patch_columns := ∅ |}
       Sample.two_active
     = (Resolved (json 401 (ErrorJson "Unauthorized")), Sample.two_active)
  /\ status (json 401 (ErrorJson "Unauthorized")) <> 403.
Proof.
  split; [discriminate|]. split; [reflexivity|]. split; [discriminate|].
  split; [reflexivity | discriminate].
Qed.

(** C6, as the code has it.  A caller whose role is not [admin] sends an
    update whose body names a non-empty [ownerId] other than the owner of
    the fetched row: if the caller is that owner the handler answers 403
    Forbidden, otherwise 401 Unauthorized; either way the store is left as
    it was, so no transfer is logged and no row is written. *)
Theorem patch_vehicle_owner_change_forbidden
  (decl : VehiclesDecl) (env : Env) (db : Db) (u : User) (X : string)
  (vehicleBody : VehiclePatch) (v : Vehicle) (o : string) :
  role u <> "admin" ->
  lookup_uuid X (vehiclesTable db) = Some v ->
  patch_ownerId vehicleBody = Some o ->
  o <> "" ->
  o <> ownerId v ->
  (ownerId v = user_id u ->
     patch_vehicle decl env (Some u) X vehicleBody db =
     (Resolved (json 403 (ErrorJson "Only admins can transfer ownership")), db))
  /\ (ownerId v <> user_id u ->
        patch_vehicle decl env (Some u) X vehicleBody db =
        (Resolved (json 401 (ErrorJson "Unauthorized")), db)).
Proof.
  intros Hrole Hv Hbody Hne Hother.
  destruct (lookup_uuid_Some _ _ _ Hv) as [rest Hf].
  unfold patch_vehicle. fetch Hf.
  rewrite (string_eqb_neq _ _ Hrole). simpl negb. split; intros Hown.
  - rewrite Hown, String.eqb_refl. simpl.
    unfold changes_owner. rewrite Hbody, (string_eqb_neq _ _ Hne).
    rewrite (string_eqb_neq _ _ Hother). reflexivity.
  - rewrite (string_eqb_neq _ _ Hown). reflexivity.
Qed.

Lemma patch_vehicle_owner_change_forbidden_witness :
  patch_vehicle Sample.decl Sample.at_30 (Some Sample.alice) "a"
    {| patch_vin := None; patch_ownerId := Some "2";
       patch_deletedAt := None; patch_columns := ∅ |}
    Sample.two_active
  = (Resolved (json 403 (ErrorJson "Only admins can transfer ownership")),
     Sample.two_active).
Proof.
  apply (proj1 (patch_vehicle_owner_change_forbidden Sample.decl Sample.at_30
                  Sample.two_active Sample.alice "a"
                  {| patch_vin := None; patch_ownerId := Some "2";
                     patch_deletedAt := None; patch_columns := ∅ |}
                  (Sample.car 1 "a" "WVWZZZ1" "1" None) "2"
                  ltac:(discriminate) eq_refl eq_refl
                  ltac:(discriminate) ltac:(discriminate))).
  reflexivity.
Defined.

(** An empty [ownerId] in the body is falsy in the handler's test, so it
    is not taken for a change of owner: the owner's request is never
    answered 403. *)
Lemma patch_vehicle_empty_ownerId_not_forbidden :
  forall r db',
    patch_vehicle Sample.decl Sample.at_30 (Some Sample.alice) "a"
      {| patch_vin := None; patch_ownerId := Some "";
         patch_deletedAt := None; patch_columns := ∅ |}
      Sample.two_active = (Resolved r, db') ->
    status r <> 403.
Proof.
  intros r db' H. vm_compute in H. injection H as <- _. discriminate.
Qed.

(** ** The route table as a whole *)

Lemma update_vehicles_cases decl env s w db :
  update_vehicles decl env s w db = (Threw, db)
  \/ update_vehicles decl env s w db =
     (Resolved (map (apply_set decl env s)
                    (List.filter (matches w) (vehiclesTable db))),
      mkDb (map (fun r => if matches w r then apply_set decl env s r else r)
                (vehiclesTable db))
           (ownershipTransfersTable db)).
Proof.
  unfold update_vehicles. destruct (no_values s); [left; reflexivity|].
  destruct (vin_unique decl && _); [left | right]; reflexivity.
Qed.

Lemma insert_vehicle_cases decl env values db :
  insert_vehicle decl env values db = (Threw, db)
  \/ insert_vehicle decl env values db =
     (Resolved [inserted_row env values],
      mkDb (vehiclesTable db ++ [inserted_row env values])
           (ownershipTransfersTable db)).
Proof.
  unfold insert_vehicle. destruct (vin_unique decl && _); [left | right]; reflexivity.
Qed.

(** *** What each handler does, by cases on the store *)

Lemma get_vehicle_outcome u X db :
  get_vehicle (Some u) X db =
  (Resolved match lookup_uuid X (vehiclesTable db) with
            | None => vehicle_not_found
            | Some v => if allowed u (GET_vehicle X) v
                        then json 200 (VehicleJson v) else unauthorized
            end, db).
Proof.
  unfold get_vehicle, lookup_uuid, await, select_from_vehicles, resolve.
  destruct (List.filter _ (vehiclesTable db)) as [|v rest]; [reflexivity|].
  simpl. destruct (String.eqb (role u) "admin"),
           (String.eqb (ownerId v) (user_id u)); reflexivity.
Qed.

Lemma delete_vehicle_outcome decl env u X db :
  delete_vehicle decl env (Some u) X db =
  match lookup_uuid X (vehiclesTable db) with
  | None => (Resolved vehicle_not_found, db)
  | Some v =>
      if allowed u (DELETE_vehicle X) v
      then (Resolved (json 200 (MessageJson "Vehicle soft deleted successfully"
                                            (uuid v))),
            mkDb (map (apply_set decl env (softDeleteVehicle env))
                      (vehiclesTable db))
                 (ownershipTransfersTable db))
      else (Resolved unauthorized, db)
  end.
Proof.
  destruct (lookup_uuid X (vehiclesTable db)) as [v|] eqn:Hv.
  - simpl. destruct (String.eqb_spec (ownerId v) (user_id u)) as [Hown|Hne].
    + apply delete_vehicle_by_owner; assumption.
    + destruct (lookup_uuid_Some _ _ _ Hv) as [rest Hf].
      unfold delete_vehicle. fetch Hf.
      rewrite (string_eqb_neq _ _ Hne). reflexivity.
  - unfold lookup_uuid in Hv. unfold delete_vehicle. 
    unfold await, select_from_vehicles, resolve.
    destruct (List.filter _ (vehiclesTable db)); [reflexivity | discriminate].
Qed.

Lemma restore_vehicle_outcome decl env u X db :
  restore_vehicle decl env (Some u) X db =
  match lookup_uuid X (vehiclesTable db) with
  | None => (Resolved vehicle_not_found, db)
  | Some v =>
      if allowed u (POST_restore X) v
      then (Resolved (json 200 (RestoredJson
                        (apply_set decl env (restoredVehicleUpdate env) v))),
            mkDb (map (fun r => if matches (Some (eq_uuid X)) r
                                then apply_set decl env (restoredVehicleUpdate env) r
                                else r)
                      (vehiclesTable db))
                 (ownershipTransfersTable db))
      else (Resolved unauthorized, db)
  end.
Proof.
  destruct (lookup_uuid X (vehiclesTable db)) as [v|] eqn:Hv.
  - simpl. destruct (String.eqb_spec (ownerId v) (user_id u)) as [Hown|Hne].
    + apply restore_vehicle_by_owner; assumption.
    + destruct (lookup_uuid_Some _ _ _ Hv) as [rest Hf].
      unfold restore_vehicle. fetch Hf.
      rewrite (string_eqb_neq _ _ Hne). reflexivity.
  - unfold lookup_uuid in Hv. unfold restore_vehicle.
    unfold await, select_from_vehicles, resolve.
    destruct (List.filter _ (vehiclesTable db)); [reflexivity | discriminate].
Qed.

(** The last statement of update, for a UUID some row carries: either it
    throws and writes nothing, or it writes the rows with the UUID and
    answers with the first of them. *)
Lemma patch_apply_cases decl env X vehicleBody db v :
  lookup_uuid X (vehiclesTable db) = Some v ->
  patch_apply decl env X vehicleBody db = (Threw, db)
  \/ patch_apply decl env X vehicleBody db =
     (Resolved (json 200 (VehicleJson
        (apply_set decl env (validatedVehicleUpdate vehicleBody) v))),
      mkDb (map (fun r => if matches (Some (eq_uuid X)) r
                          then apply_set decl env
                                 (validatedVehicleUpdate vehicleBody) r
                          else r)
                (vehiclesTable db))
           (ownershipTransfersTable db)).
Proof.
  intros Hv. destruct (lookup_uuid_Some _ _ _ Hv) as [rest Hf].
  unfold patch_apply, await.
  destruct (update_vehicles_cases decl env (validatedVehicleUpdate vehicleBody)
              (Some (eq_uuid X)) db) as [E|E]; rewrite E.
  - left. reflexivity.
  - right. rewrite Hf. reflexivity.
Qed.

Lemma patch_vehicle_outcome decl env u X vehicleBody db :
  patch_vehicle decl env (Some u) X vehicleBody db =
  match lookup_uuid X (vehiclesTable db) with
  | None => (Resolved vehicle_not_found, db)
  | Some v =>
      if allowed u (PATCH_vehicle X vehicleBody) v
      then match changes_owner vehicleBody v with
           | Some newOwnerId =>
               if String.eqb (role u) "admin"
               then patch_apply decl env X vehicleBody
                      (mkDb (vehiclesTable db)
                            (ownershipTransfersTable db ++
                               [ {| vehicleId := None;
                                    transferVin := Some (vin v);
                                    fromUserId := ownerId v;
                                    toUserId := newOwnerId;
                                    transferredAt := now env |} ]))
               else (Resolved (json 403 (ErrorJson
                       "Only admins can transfer ownership")), db)
           | None => patch_apply decl env X vehicleBody db
           end
      else (Resolved unauthorized, db)
  end.
Proof.
  unfold patch_vehicle, lookup_uuid, await at 1, select_from_vehicles.
  destruct (List.filter _ (vehiclesTable db)) as [|v rest]; [reflexivity|].
  cbn [head allowed].
  destruct (String.eqb (role u) "admin"),
           (String.eqb (ownerId v) (user_id u)); simpl;
    try reflexivity;
    destruct (changes_owner vehicleBody v); reflexivity.
Qed.

(** Create, by cases: with a soft-deleted match the transfer, if any, is
    logged first and the update then either throws or reactivates the
    match; without one the insert either throws or appends the row. *)
Lemma post_vehicles_outcome decl env u vehicle db :
  match find_deleted (with_vin (insert_vin vehicle) (vehiclesTable db)) with
  | Some d =>
      let logged :=
        (ownershipTransfersTable db ++
           if negb (String.eqb (ownerId d) (user_id u))
           then [ownershipTransfer env u d] else [])%list in
      post_vehicles decl env (Some u) vehicle db
      = (Threw, mkDb (vehiclesTable db) logged)
      \/ post_vehicles decl env (Some u) vehicle db
         = (Resolved (json 200 (RestoredJson (reactivated env u d))),
            mkDb (map (fun r => if Z.eqb (id r) (id d)
                                then reactivated env u d else r)
                      (vehiclesTable db))
                 logged)
  | None =>
      post_vehicles decl env (Some u) vehicle db = (Threw, db)
      \/ post_vehicles decl env (Some u) vehicle db
         = (Resolved (json 201 (CreatedJson
                        (inserted_row env (validatedVehicle u vehicle)))),
            mkDb (vehiclesTable db ++
                    [inserted_row env (validatedVehicle u vehicle)])
                 (ownershipTransfersTable db))
  end.
Proof.
  destruct (find_deleted _) as [d|] eqn:Hfind.
  - destruct (find_deleted_Some _ _ Hfind) as [Hin _].
    apply with_vin_In in Hin. destruct Hin as [Hin _].
    set (logged := (ownershipTransfersTable db ++
                      if negb (String.eqb (ownerId d) (user_id u))
                      then [ownershipTransfer env u d] else [])%list).
    assert (Hrun : post_vehicles decl env (Some u) vehicle db =
                   await (update_vehicles decl env (updatedVehicle env u d)
                                          (Some (eq_id (id d))))
                         (fun res => match res with
                                     | updated :: _ =>
                                         resolve (json 200 (RestoredJson updated))
                                     | [] => throw
                                     end)
                         (mkDb (vehiclesTable db) logged)).
    { unfold post_vehicles, await at 1, select_from_vehicles.
      fold (with_vin (insert_vin vehicle) (vehiclesTable db)). rewrite Hfind.
      unfold await at 1, logged. destruct (negb _); simpl.
      - reflexivity.
      - rewrite app_nil_r. destruct db; reflexivity. }
    rewrite Hrun. unfold await.
    destruct (update_vehicles_cases decl env (updatedVehicle env u d)
                (Some (eq_id (id d))) (mkDb (vehiclesTable db) logged))
      as [E|E]; rewrite E.
    + left. reflexivity.
    + right. cbn [vehiclesTable ownershipTransfersTable].
      destruct (List.filter (matches (Some (eq_id (id d)))) (vehiclesTable db))
        as [|r0 rest] eqn:Hf.
      * exfalso.
        assert (Hd : In d (List.filter (matches (Some (eq_id (id d))))
                                       (vehiclesTable db))).
        { apply filter_In. split; [exact Hin|]. simpl. apply Z.eqb_refl. }
        rewrite Hf in Hd. destruct Hd.
      * assert (Hr0 : In r0 (List.filter (matches (Some (eq_id (id d))))
                                         (vehiclesTable db)))
          by (rewrite Hf; left; reflexivity).
        apply filter_In in Hr0. destruct Hr0 as [_ Hid]. simpl in Hid.
        apply Z.eqb_eq in Hid. cbn [map]. unfold resolve.
        rewrite (updatedVehicle_apply decl env u d r0 Hid).
        replace (map (fun r => if matches (Some (eq_id (id d))) r
                               then apply_set decl env (updatedVehicle env u d) r
                               else r) (vehiclesTable db))
          with (map (fun r => if Z.eqb (id r) (id d)
                              then reactivated env u d else r)
                    (vehiclesTable db)); [reflexivity|].
        apply map_ext. intros r. simpl.
        destruct (Z.eqb_spec (id r) (id d)) as [Hr|]; [|reflexivity].
        symmetry. apply updatedVehicle_apply. exact Hr.
  - assert (Hrun : post_vehicles decl env (Some u) vehicle db =
                   await (insert_vehicle decl env (validatedVehicle u vehicle))
                         (fun res => match res with
                                     | created :: _ =>
                                         resolve (json 201 (CreatedJson created))
                                     | [] => throw
                                     end) db).
    { unfold post_vehicles, await at 1, select_from_vehicles.
      fold (with_vin (insert_vin vehicle) (vehiclesTable db)). rewrite Hfind.
      reflexivity. }
    rewrite Hrun. unfold await.
    destruct (insert_vehicle_cases decl env (validatedVehicle u vehicle) db)
      as [E|E]; rewrite E; [left | right]; reflexivity.
Qed.

(** Case analysis on the tests a handler makes, in an equation [H] that
    one of the outcome lemmas has rewritten. *)
Ltac outcomes H :=
  repeat match type of H with
  | context [lookup_uuid ?X ?tbl] =>
      let Hv := fresh "Hlookup" in
      destruct (lookup_uuid X tbl) eqn:Hv
  | context [allowed ?u ?req ?v] =>
      let Ha := fresh "Hallowed" in
      destruct (allowed u req v) eqn:Ha
  | context [changes_owner ?b ?v] =>
      let Hc := fresh "Hchanges" in
      destruct (changes_owner b v) eqn:Hc
  | context [String.eqb (role ?u) "admin"] =>
      let Hr := fresh "Hrole" in
      destruct (String.eqb (role u) "admin") eqn:Hr
  | context [patch_apply ?d ?e ?X ?b ?db] =>
      let E := fresh "E" in
      match goal with
      | Hl : lookup_uuid X _ = Some ?v |- _ =>
          destruct (patch_apply_cases d e X b db v Hl) as [E|E];
          rewrite E in H; clear E
      end
  end.

(** The same for create. *)
Ltac post_outcomes H :=
  match type of H with
  | post_vehicles ?d ?e (Some ?u) ?vehicle ?db = _ =>
      let Ho := fresh "Ho" in
      let E := fresh "E" in
      pose proof (post_vehicles_outcome d e u vehicle db) as Ho;
      destruct (find_deleted (with_vin (insert_vin vehicle) (vehiclesTable db)));
      cbv zeta in Ho; destruct Ho as [E|E]; rewrite E in H; clear E
  end.

(** X1. A request is answered 401 exactly when the authorization policy
    denies it: no user is authenticated, or the request names the UUID of
    a row of the table and [allowed] is false for the caller and the row
    fetched for that UUID. *)
Theorem unauthorized_iff_denied
  (decl : VehiclesDecl) (env : Env) (user : option User) (req : Request)
  (db db' : Db) (r : Response) :
  vehiclesRoute decl env user req db = (Resolved r, db') ->
  (status r = 401 <->
   match user with
   | None => True
   | Some u => exists X v, target req = Some X
                 /\ lookup_uuid X (vehiclesTable db) = Some v
                 /\ allowed u req v = false
   end).
Proof.
  intros H. destruct user as [u|].
  2: { destruct req; simpl in H; injection H as <- _; simpl; tauto. }
  destruct req as [|vehicle|X|X vehicleBody|X|X]; cbn [vehiclesRoute] in H;
    [ injection H as <- _
    | post_outcomes H; try discriminate; injection H as <- _
    | rewrite get_vehicle_outcome in H; outcomes H; injection H as <- _
    | rewrite patch_vehicle_outcome in H; outcomes H; try discriminate;
      injection H as <- _
    | rewrite delete_vehicle_outcome in H; outcomes H; injection H as <- _
    | rewrite restore_vehicle_outcome in H; outcomes H; injection H as <- _ ];
    (split;
     [ first [ discriminate
             | intros _; do 2 eexists; (split; [reflexivity|]);
               split; eassumption ]
     | first [ intros _; reflexivity
             | intros (X0 & v0 & HX & Hv & Ha);
               first [ discriminate
                     | injection HX as <-; congruence ] ] ]).
Qed.

Lemma unauthorized_iff_denied_witness :
  status (json 401 (ErrorJson "Unauthorized")) = 401 <->
  exists X v, target (DELETE_vehicle "a") = Some X
    /\ lookup_uuid X (vehiclesTable Sample.one_deleted) = Some v
    /\ allowed Sample.root (DELETE_vehicle "a") v = false.
Proof.
  exact (unauthorized_iff_denied Sample.decl Sample.at_30 (Some Sample.root)
           (DELETE_vehicle "a") Sample.one_deleted Sample.one_deleted
           (json 401 (ErrorJson "Unauthorized")) eq_refl).
Defined.

(** X2. A handler that resolves answers 404 exactly when a user is
    authenticated, the request names a UUID, and the select by that UUID
    returns no row. *)
Theorem not_found_iff_no_row
  (decl : VehiclesDecl) (env : Env) (user : option User) (req : Request)
  (db db' : Db) (r : Response) :
  vehiclesRoute decl env user req db = (Resolved r, db') ->
  (status r = 404 <->
   exists u X, user = Some u /\ target req = Some X
     /\ lookup_uuid X (vehiclesTable db) = None).
Proof.
  intros H. destruct user as [u|].
  2: { destruct req; simpl in H; injection H as <- _; simpl;
       (split; [discriminate | intros (u0 & X0 & Hu & _); discriminate]). }
  destruct req as [|vehicle|X|X vehicleBody|X|X]; cbn [vehiclesRoute] in H;
    [ injection H as <- _
    | post_outcomes H; try discriminate; injection H as <- _
    | rewrite get_vehicle_outcome in H; outcomes H; injection H as <- _
    | rewrite patch_vehicle_outcome in H; outcomes H; try discriminate;
      injection H as <- _
    | rewrite delete_vehicle_outcome in H; outcomes H; injection H as <- _
    | rewrite restore_vehicle_outcome in H; outcomes H; injection H as <- _ ];
    (split;
     [ first [ discriminate
             | intros _; do 2 eexists; (split; [reflexivity|]);
               (split; [reflexivity|]); assumption ]
     | first [ intros _; reflexivity
             | intros (u0 & X0 & _ & HX & Hnone);
               first [ discriminate
                     | injection HX as <-; congruence ] ] ]).
Qed.

Lemma not_found_iff_no_row_witness :
  status (json 404 (ErrorJson "Vehicle not found")) = 404 <->
  exists u X, Some Sample.alice = Some u
    /\ target (POST_restore Garage.uuid_unknown) = Some X
    /\ lookup_uuid X (vehiclesTable Garage.vehicles) = None.
Proof.
  exact (not_found_iff_no_row Sample.decl Sample.at_30 (Some Sample.alice)
           (POST_restore Garage.uuid_unknown) Garage.vehicles Garage.vehicles
           (json 404 (ErrorJson "Vehicle not found")) eq_refl).
Defined.

(** X3. A request is answered 403 exactly when it is an update by a
    caller who is not an admin, owns the row fetched for the UUID, and
    whose body names a non-empty [ownerId] other than the caller's. *)
Theorem forbidden_iff_owner_changes_owner
  (decl : VehiclesDecl) (env : Env) (user : option User) (req : Request)
  (db db' : Db) (r : Response) :
  vehiclesRoute decl env user req db = (Resolved r, db') ->
  (status r = 403 <->
   exists u X vehicleBody v o,
     user = Some u /\ req = PATCH_vehicle X vehicleBody
     /\ role u <> "admin"
     /\ lookup_uuid X (vehiclesTable db) = Some v
     /\ ownerId v = user_id u
     /\ patch_ownerId vehicleBody = Some o /\ o <> "" /\ o <> user_id u).
Proof.
  assert (Hchanges : forall b v o, changes_owner b v = Some o ->
            patch_ownerId b = Some o /\ o <> "" /\ o <> ownerId v).
  { intros b v o. unfold changes_owner.
    destruct (patch_ownerId b) as [o'|]; [|discriminate].
    destruct (String.eqb_spec o' ""); [discriminate|].
    destruct (String.eqb_spec o' (ownerId v)); [discriminate|].
    simpl. intros [= <-]. auto. }
  assert (Hkeeps : forall b v o, patch_ownerId b = Some o -> o <> "" ->
            o <> ownerId v -> changes_owner b v = Some o).
  { intros b v o Hb H1 H2. unfold changes_owner. rewrite Hb.
    rewrite (string_eqb_neq _ _ H1), (string_eqb_neq _ _ H2). reflexivity. }
  intros H. destruct user as [u|].
  2: { destruct req; simpl in H; injection H as <- _; simpl;
       (split; [discriminate | intros (u0 & ? & ? & ? & ? & Hu & _); discriminate]). }
  destruct req as [|vehicle|X|X vehicleBody|X|X]; cbn [vehiclesRoute] in H;
    [ injection H as <- _
    | post_outcomes H; try discriminate; injection H as <- _
    | rewrite get_vehicle_outcome in H; outcomes H; injection H as <- _
    | rewrite patch_vehicle_outcome in H; outcomes H; try discriminate;
      injection H as <- _
    | rewrite delete_vehicle_outcome in H; outcomes H; injection H as <- _
    | rewrite restore_vehicle_outcome in H; outcomes H; injection H as <- _ ];
    try (split; [discriminate
                | intros (u0 & X0 & b0 & v0 & o0 & _ & Hreq & _); discriminate]).
  all: simpl in *.
  all: try (split; [discriminate|];
            intros (u0 & X0 & b0 & v0 & o0 & [= <-] & [= <- <-] & Hr & Hv & Hown
                    & Hb & Hne & Hother); exfalso).
  all: try (rewrite Hlookup in Hv; injection Hv as <-).
  all: try (rewrite Hlookup in Hv; discriminate).
  all: try (apply String.eqb_eq in Hrole; contradiction).
  all: try (rewrite <- Hown in Hother;
            rewrite (Hkeeps _ _ _ Hb Hne Hother) in Hchanges0; discriminate).
  all: try (rewrite Hown, String.eqb_refl, orb_true_r in Hallowed; discriminate).
  - split; [intros _|reflexivity].
    destruct (Hchanges _ _ _ Hchanges0) as (Hb & Hne & Hother).
    rewrite Hrole in Hallowed. simpl in Hallowed.
    apply String.eqb_eq in Hallowed. apply String.eqb_neq in Hrole.
    exists u, X, vehicleBody, v, s. rewrite <- Hallowed. auto 10.
Qed.

Lemma forbidden_iff_owner_changes_owner_witness :
  status (json 403 (ErrorJson "Only admins can transfer ownership")) = 403 <->
  exists u X vehicleBody v o,
    Some Sample.alice = Some u
    /\ PATCH_vehicle "a" {| patch_vin := None; patch_ownerId := Some "2";
                            patch_deletedAt := None; patch_columns := ∅ |}
       = PATCH_vehicle X vehicleBody
    /\ role u <> "admin"
    /\ lookup_uuid X (vehiclesTable Sample.two_active) = Some v
    /\ ownerId v = user_id u
    /\ patch_ownerId vehicleBody = Some o /\ o <> "" /\ o <> user_id u.
Proof.
  exact (forbidden_iff_owner_changes_owner Sample.decl Sample.at_30
           (Some Sample.alice)
           (PATCH_vehicle "a" {| patch_vin := None; patch_ownerId := Some "2";
                                 patch_deletedAt := None; patch_columns := ∅ |})
           Sample.two_active Sample.two_active
           (json 403 (ErrorJson "Only admins can transfer ownership")) eq_refl).
Defined.

(** X4. A request that only reads ([GET /], [GET /:vehicleUUID]) leaves
    the store exactly as it was, and so does a request the handler itself
    answers with an error status (401, 403, 404).  A request whose
    handler throws leaves the vehicles table as it was; the transfers
    table it may have written already. *)
Theorem refusals_write_nothing
  (decl : VehiclesDecl) (env : Env) (user : option User) (req : Request)
  (db : Db) :
  let fin := vehiclesRoute decl env user req db in
  (is_read req = true -> snd fin = db)
  /\ (forall r, fst fin = Resolved r -> 400 <= status r -> snd fin = db)
  /\ (fst fin = Threw -> vehiclesTable (snd fin) = vehiclesTable db).
Proof.
  cbv zeta. destruct (vehiclesRoute decl env user req db) as [c db'] eqn:H.
  cbn [fst snd]. destruct user as [u|].
  2: { destruct req; simpl in H; injection H as <- <-;
       (split; [reflexivity | split; [reflexivity | discriminate]]). }
  destruct req as [|vehicle|X|X vehicleBody|X|X]; cbn [vehiclesRoute] in H;
    [ injection H as <- <-
    | post_outcomes H; injection H as <- <-
    | rewrite get_vehicle_outcome in H; outcomes H; injection H as <- <-
    | rewrite patch_vehicle_outcome in H; outcomes H; injection H as <- <-
    | rewrite delete_vehicle_outcome in H; outcomes H; injection H as <- <-
    | rewrite restore_vehicle_outcome in H; outcomes H; injection H as <- <- ];
    (split;
     [ intros Hread; first [reflexivity | discriminate]
     | split;
       [ intros r Hr Hs;
         first [ reflexivity
               | discriminate
               | exfalso; injection Hr as <-; simpl in Hs; lia ]
       | intros Hthrew; first [reflexivity | discriminate] ] ]).
Qed.

Lemma refusals_write_nothing_witness :
  snd (vehiclesRoute Sample.decl Sample.at_30 (Some Sample.alice)
         (PATCH_vehicle Garage.uuid_b
            {| patch_vin := None; patch_ownerId := Some "1";
               patch_deletedAt := None; patch_columns := ∅ |})
         Garage.vehicles)
  = Garage.vehicles.
Proof.
  apply (proj1 (proj2 (refusals_write_nothing Sample.decl Sample.at_30
                         (Some Sample.alice)
                         (PATCH_vehicle Garage.uuid_b
                            {| patch_vin := None; patch_ownerId := Some "1";
                               patch_deletedAt := None; patch_columns := ∅ |})
                         Garage.vehicles))
               (json 401 (ErrorJson "Unauthorized"))).
  - reflexivity.
  - simpl. lia.
Defined.

(** *** Rows are kept, transfers are only added *)

Lemma map_id_update decl env s (c : Vehicle -> bool) tbl :
  map id (map (fun r => if c r then apply_set decl env s r else r) tbl)
  = map id tbl.
Proof.
  rewrite map_map. apply map_ext. intros r. destruct (c r); reflexivity.
Qed.

Lemma map_id_apply_set decl env s tbl :
  map id (map (apply_set decl env s) tbl) = map id tbl.
Proof. rewrite map_map. apply map_ext. reflexivity. Qed.

Lemma map_id_reactivated env u d tbl :
  map id (map (fun r => if Z.eqb (id r) (id d) then reactivated env u d else r)
              tbl)
  = map id tbl.
Proof.
  rewrite map_map. apply map_ext. intros r.
  destruct (Z.eqb_spec (id r) (id d)) as [Hid|]; [|reflexivity].
  simpl. symmetry. exact Hid.
Qed.

(** One request: the ids of the rows stay in place, and create may put
    one row after them; the transfers stay in place, and at most one is
    put after them. *)
Lemma vehiclesRoute_step decl env user req db :
  let db' := snd (vehiclesRoute decl env user req db) in
  (exists added, map id (vehiclesTable db')
                 = (map id (vehiclesTable db) ++ added)%list
                 /\ (length added <= 1)%nat)
  /\ (exists added, ownershipTransfersTable db'
                    = (ownershipTransfersTable db ++ added)%list
                    /\ (length added <= 1)%nat).
Proof.
  assert (Hsame : forall tbl' : list Vehicle,
            map id tbl' = map id (vehiclesTable db) ->
            exists added, map id tbl'
                          = (map id (vehiclesTable db) ++ added)%list
                          /\ (length added <= 1)%nat).
  { intros tbl' E. exists []. rewrite app_nil_r. split; [exact E | simpl; lia]. }
  assert (Hkeep : forall log' : list OwnershipTransfer,
            log' = ownershipTransfersTable db ->
            exists added, log'
                          = (ownershipTransfersTable db ++ added)%list
                          /\ (length added <= 1)%nat).
  { intros log' E. exists []. rewrite app_nil_r. split; [exact E | simpl; lia]. }
  cbv zeta. destruct user as [u|].
  2: { destruct req; simpl;
       (split; [apply Hsame | apply Hkeep]; reflexivity). }
  destruct (vehiclesRoute decl env (Some u) req db) as [c db'] eqn:H.
  cbn [snd].
  destruct req as [|vehicle|X|X vehicleBody|X|X]; cbn [vehiclesRoute] in H.
  - injection H as _ <-. split; [apply Hsame | apply Hkeep]; reflexivity.
  - pose proof (post_vehicles_outcome decl env u vehicle db) as Ho.
    destruct (find_deleted _) as [d|]; cbv zeta in Ho;
      (destruct Ho as [E|E]; rewrite E in H; injection H as _ <-;
       cbn [vehiclesTable ownershipTransfersTable]).
    + split; [apply Hsame; reflexivity|].
      eexists. split; [reflexivity|]. destruct (negb _); simpl; lia.
    + split; [apply Hsame; apply map_id_reactivated|].
      eexists. split; [reflexivity|]. destruct (negb _); simpl; lia.
    + split; [apply Hsame | apply Hkeep]; reflexivity.
    + split; [|apply Hkeep; reflexivity].
      eexists. rewrite map_app. split; [reflexivity | simpl; lia].
  - rewrite get_vehicle_outcome in H. injection H as _ <-.
    split; [apply Hsame | apply Hkeep]; reflexivity.
  - rewrite patch_vehicle_outcome in H. outcomes H; injection H as _ <-;
      cbn [vehiclesTable ownershipTransfersTable];
      (split;
       [ apply Hsame; first [reflexivity | apply map_id_update]
       | first [ apply Hkeep; reflexivity
               | eexists; split; [reflexivity | simpl; lia] ] ]).
  - rewrite delete_vehicle_outcome in H. outcomes H; injection H as _ <-;
      (split; [apply Hsame; first [reflexivity | apply map_id_apply_set]
              | apply Hkeep; reflexivity]).
  - rewrite restore_vehicle_outcome in H. outcomes H; injection H as _ <-;
      (split; [apply Hsame; first [reflexivity | apply map_id_update]
              | apply Hkeep; reflexivity]).
Qed.

(** The ids of the rows over a sequence of requests, with the rows
    rewritten where they stand. *)
Lemma serve_ids
  (decl : VehiclesDecl) (calls : list Call) (db : Db) :
  exists added,
    map id (vehiclesTable (serve decl calls db))
    = (map id (vehiclesTable db) ++ added)%list
    /\ (length added <= length calls)%nat.
Proof.
  revert db. induction calls as [|c calls IH]; intros db; simpl.
  - exists []. rewrite app_nil_r. split; [reflexivity | simpl; lia].
  - destruct (vehiclesRoute_step decl (call_env c) (call_user c)
                (call_request c) db) as [(a1 & E1 & L1) _].
    destruct (IH (snd (vehiclesRoute decl (call_env c) (call_user c)
                                     (call_request c) db)))
      as (a2 & E2 & L2).
    exists (a1 ++ a2)%list. rewrite E2, E1, <- app_assoc.
    split; [reflexivity|]. rewrite length_app. lia.
Qed.

(** X5. No sequence of requests removes a row: whatever the order of the
    table, it holds a row for every id it held, once each, and besides
    them at most one row per request. *)
Theorem serve_never_removes_rows
  (decl : VehiclesDecl) (calls : list Call) (db : Db) :
  exists added,
    Permutation (map id (vehiclesTable (serve decl calls db)))
                (map id (vehiclesTable db) ++ added)
    /\ (length added <= length calls)%nat.
Proof.
  destruct (serve_ids decl calls db) as (added & E & L).
  exists added. rewrite E. split; [reflexivity | exact L].
Qed.

(** X6. The transfers table is append-only over any sequence of
    requests: the records it had are still there, unchanged and in the
    same places, and at most one record per request has been put after
    them. *)
Theorem serve_appends_transfers
  (decl : VehiclesDecl) (calls : list Call) (db : Db) :
  exists added,
    ownershipTransfersTable (serve decl calls db)
    = (ownershipTransfersTable db ++ added)%list
    /\ (length added <= length calls)%nat.
Proof.
  revert db. induction calls as [|c calls IH]; intros db; simpl.
  - exists []. rewrite app_nil_r. split; [reflexivity | simpl; lia].
  - destruct (vehiclesRoute_step decl (call_env c) (call_user c)
                (call_request c) db) as [_ (a1 & E1 & L1)].
    destruct (IH (snd (vehiclesRoute decl (call_env c) (call_user c)
                                     (call_request c) db)))
      as (a2 & E2 & L2).
    exists (a1 ++ a2)%list. rewrite E2, E1, <- app_assoc.
    split; [reflexivity|]. rewrite length_app. lia.
Qed.

(** *** What the writing handlers leave alone *)












(** X9. An admin hands a vehicle to another owner: the update, whose
    body names a non-empty [ownerId] other than the current owner and
    leaves the VIN alone, answers 200 with the fetched row under its new
    owner, and has logged exactly one transfer, identified by the VIN,
    from the old owner to the new one. *)
Theorem patch_vehicle_admin_transfers
  (decl : VehiclesDecl) (env : Env) (db : Db) (u : User) (X : string)
  (vehicleBody : VehiclePatch) (v : Vehicle) (o : string) :
  role u = "admin" ->
  lookup_uuid X (vehiclesTable db) = Some v ->
  patch_ownerId vehicleBody = Some o ->
  o <> "" ->
  o <> ownerId v ->
  patch_vin vehicleBody = None ->
  exists updated db',
    patch_vehicle decl env (Some u) X vehicleBody db
    = (Resolved (json 200 (VehicleJson updated)), db')
    /\ ownerId updated = o
    /\ id updated = id v /\ uuid updated = uuid v /\ vin updated = vin v
    /\ lookup_uuid X (vehiclesTable db') = Some updated
    /\ ownershipTransfersTable db' =
       (ownershipTransfersTable db ++
          [ {| vehicleId := None; transferVin := Some (vin v);
               fromUserId := ownerId v; toUserId := o;
               transferredAt := now env |} ])%list.
Proof.
  intros Hrole Hv Hbody Hne Hother Hvin.
  destruct (lookup_uuid_Some _ _ _ Hv) as [rest Hf].
  rewrite patch_vehicle_outcome, Hv. cbn [allowed]. rewrite Hrole.
  cbn [String.eqb orb]. simpl.
  unfold changes_owner. rewrite Hbody.
  rewrite (string_eqb_neq _ _ Hne), (string_eqb_neq _ _ Hother). simpl.
  unfold patch_apply, await.
  rewrite update_vehicles_keeps_vin;
    [|unfold no_values; simpl; rewrite Hbody, Hvin; reflexivity | exact Hvin].
  cbn [vehiclesTable ownershipTransfersTable]. rewrite Hf. cbn [map].
  eexists _, _. split; [reflexivity|].
  split; [simpl; rewrite Hbody; reflexivity|].
  split; [reflexivity|]. split; [reflexivity|].
  split; [simpl; rewrite Hvin; reflexivity|].
  split; [|reflexivity].
  cbn [vehiclesTable]. unfold lookup_uuid.
  rewrite (filter_map_where (matches (Some (eq_uuid X))))
    by (intros x; apply apply_set_keeps_uuid; reflexivity).
  rewrite Hf. reflexivity.
Qed.

Lemma patch_vehicle_admin_transfers_witness :
  exists updated db',
    patch_vehicle Sample.decl Sample.at_30 (Some Sample.root) "a"
      {| patch_vin := None; patch_ownerId := Some "2";
         patch_deletedAt := None; patch_columns := ∅ |}
      Sample.two_active
    = (Resolved (json 200 (VehicleJson updated)), db')
    /\ ownerId updated = "2"
    /\ id updated = 1 /\ uuid updated = "a" /\ vin updated = "WVWZZZ1"
    /\ lookup_uuid "a" (vehiclesTable db') = Some updated
    /\ ownershipTransfersTable db' =
       [ {| vehicleId := None; transferVin := Some "WVWZZZ1";
            fromUserId := "1"; toUserId := "2"; transferredAt := 30 |} ].
Proof.
  apply (patch_vehicle_admin_transfers Sample.decl Sample.at_30
           Sample.two_active Sample.root "a"
           {| patch_vin := None; patch_ownerId := Some "2";
              patch_deletedAt := None; patch_columns := ∅ |}
           (Sample.car 1 "a" "WVWZZZ1" "1" None) "2");
    first [reflexivity | discriminate].
Defined.

(** X10. What update writes to the transfers table, however it ends: one
    record when the caller is an admin and the body names a non-empty
    [ownerId] other than the owner of the fetched row, nothing
    otherwise.  The record is written before the update statement, so it
    stays when that statement throws. *)
Theorem patch_vehicle_transfer_log
  (decl : VehiclesDecl) (env : Env) (db : Db) (u : User) (X : string)
  (vehicleBody : VehiclePatch) :
  ownershipTransfersTable (snd (patch_vehicle decl env (Some u) X vehicleBody db))
  = (ownershipTransfersTable db ++
       match lookup_uuid X (vehiclesTable db) with
       | Some v =>
           match changes_owner vehicleBody v with
           | Some newOwnerId =>
               if String.eqb (role u) "admin"
               then [ {| vehicleId := None; transferVin := Some (vin v);
                         fromUserId := ownerId v; toUserId := newOwnerId;
                         transferredAt := now env |} ]
               else []
           | None => []
           end
       | None => []
       end)%list.
Proof.
  destruct (patch_vehicle decl env (Some u) X vehicleBody db) as [c db'] eqn:H.
  rewrite patch_vehicle_outcome in H. cbn [snd].
  destruct (lookup_uuid X (vehiclesTable db)) as [v|] eqn:Hlookup.
  2: { injection H as _ <-. rewrite app_nil_r. reflexivity. }
  destruct (allowed u (PATCH_vehicle X vehicleBody) v) eqn:Hallowed.
  - destruct (changes_owner vehicleBody v) as [o|].
    + destruct (String.eqb (role u) "admin").
      * match type of H with
        | patch_apply _ _ _ _ ?db1 = _ =>
            destruct (patch_apply_cases decl env X vehicleBody db1 v Hlookup)
              as [E|E]; rewrite E in H; injection H as _ <-; reflexivity
        end.
      * injection H as _ <-. rewrite app_nil_r. reflexivity.
    + destruct (patch_apply_cases decl env X vehicleBody db v Hlookup)
        as [E|E]; rewrite E in H; injection H as _ <-;
        cbn [ownershipTransfersTable]; rewrite app_nil_r; reflexivity.
  - injection H as _ <-.
    destruct (changes_owner vehicleBody v) as [o|];
      [|rewrite app_nil_r; reflexivity].
    cbn [allowed] in Hallowed. apply orb_false_elim in Hallowed.
    destruct Hallowed as [-> _]. rewrite app_nil_r. reflexivity.
Qed.

(** *** Sequences of requests *)

Lemma get_vehicles_outcome u db :
  get_vehicles (Some u) db =
  (Resolved (json 200 (VehiclesJson
     (List.filter (fun v => (if String.eqb (role u) "user"
                             then String.eqb (ownerId v) (user_id u)
                             else true) && active v)
                  (vehiclesTable db)))), db).
Proof.
  unfold get_vehicles, await, select_from_vehicles, resolve.
  destruct (String.eqb (role u) "user"); reflexivity.
Qed.

Lemma lookup_uuid_apply_set decl env s X tbl :
  set_uuid s = None ->
  lookup_uuid X (map (apply_set decl env s) tbl)
  = option_map (apply_set decl env s) (lookup_uuid X tbl).
Proof.
  intros Hs. unfold lookup_uuid.
  rewrite filter_map_stable by (intros x; apply apply_set_keeps_uuid; exact Hs).
  destruct (List.filter _ tbl); reflexivity.
Qed.

Lemma lookup_uuid_app_fresh X tbl row :
  ~ In X (map uuid tbl) -> uuid row = X ->
  lookup_uuid X (tbl ++ [row]) = Some row.
Proof.
  intros Hfresh Hrow. unfold lookup_uuid. rewrite filter_app.
  replace (List.filter (matches (Some (eq_uuid X))) tbl) with (@nil Vehicle).
  - simpl. rewrite Hrow, String.eqb_refl. reflexivity.
  - symmetry. destruct (List.filter _ tbl) as [|a l] eqn:Hf; [reflexivity|].
    assert (Ha : In a (List.filter (matches (Some (eq_uuid X))) tbl))
      by (rewrite Hf; left; reflexivity).
    apply filter_In in Ha. destruct Ha as [Ha Hm]. simpl in Hm.
    apply String.eqb_eq in Hm. destruct Hfresh. rewrite <- Hm.
    apply in_map. exact Ha.
Qed.

Lemma lookup_uuid_reactivated env u d tbl :
  lookup_uuid (uuid d) tbl = Some d ->
  lookup_uuid (uuid d)
    (map (fun r => if Z.eqb (id r) (id d) then reactivated env u d else r) tbl)
  = Some (reactivated env u d).
Proof.
  unfold lookup_uuid. induction tbl as [|a tbl IH]; simpl; [discriminate|].
  destruct (Z.eqb_spec (id a) (id d)) as [Hid|Hid].
  - intros _. simpl. rewrite String.eqb_refl. reflexivity.
  - destruct (String.eqb (uuid a) (uuid d)) eqn:Hu; simpl.
    + intros [= ->]. destruct Hid. reflexivity.
    + exact IH.
Qed.

(** A soft-delete by the owner and then a restore by the owner, as one
    step: the answer of the restore and the row the store then holds. *)
Lemma delete_then_restore_by_owner decl env1 env2 db u X v :
  lookup_uuid X (vehiclesTable db) = Some v ->
  ownerId v = user_id u ->
  let restored :=
    {| id := id v; uuid := uuid v; vin := vin v; ownerId := ownerId v;
       columns := columns v; createdAt := createdAt v;
       updatedAt := now env2; deletedAt := None |} in
  let db1 := snd (delete_vehicle decl env1 (Some u) X db) in
  let db2 := snd (restore_vehicle decl env2 (Some u) X db1) in
  restore_vehicle decl env2 (Some u) X db1
  = (Resolved (json 200 (RestoredJson restored)), db2)
  /\ lookup_uuid X (vehiclesTable db2) = Some restored.
Proof.
  intros Hv Hown restored db1 db2.
  assert (Hdb1 : db1 = mkDb (map (apply_set decl env1 (softDeleteVehicle env1))
                                 (vehiclesTable db))
                            (ownershipTransfersTable db)).
  { unfold db1. rewrite (delete_vehicle_by_owner _ _ _ _ _ _ Hv Hown).
    reflexivity. }
  assert (Hv1 : lookup_uuid X (vehiclesTable db1)
                = Some (apply_set decl env1 (softDeleteVehicle env1) v)).
  { rewrite Hdb1. cbn [vehiclesTable].
    rewrite lookup_uuid_apply_set by reflexivity. rewrite Hv. reflexivity. }
  assert (Hrun : restore_vehicle decl env2 (Some u) X db1
                 = (Resolved (json 200 (RestoredJson restored)),
                    mkDb (map (fun r => if matches (Some (eq_uuid X)) r
                                        then apply_set decl env2
                                               (restoredVehicleUpdate env2) r
                                        else r)
                              (vehiclesTable db1))
                         (ownershipTransfersTable db1))).
  { rewrite (restore_vehicle_by_owner decl env2 db1 u X _ Hv1 Hown).
    reflexivity. }
  split.
  - unfold db2. rewrite Hrun. reflexivity.
  - unfold db2. rewrite Hrun. cbn [snd vehiclesTable]. unfold lookup_uuid.
    rewrite (filter_map_where (matches (Some (eq_uuid X))))
      by (intros x; apply apply_set_keeps_uuid; reflexivity).
    unfold lookup_uuid in Hv1.
    destruct (List.filter _ (vehiclesTable db1)) as [|a l]; [discriminate|].
    injection Hv1 as ->. reflexivity.
Qed.

(** X11. Soft-delete and restore do not look at [deletedAt].  A restore
    by the owner of a vehicle that is not soft-deleted answers 200
    [restored: true] and changes nothing but [updatedAt]; a soft-delete by
    the owner of a vehicle that is soft-deleted already answers 200 and
    overwrites [deletedAt] with the time of the request. *)
Theorem delete_restore_ignore_current_state
  (decl : VehiclesDecl) (env : Env) (db : Db) (u : User) (X : string)
  (v : Vehicle) :
  lookup_uuid X (vehiclesTable db) = Some v ->
  ownerId v = user_id u ->
  (deletedAt v = None ->
     exists db',
       restore_vehicle decl env (Some u) X db
       = (Resolved (json 200 (RestoredJson
            {| id := id v; uuid := uuid v; vin := vin v; ownerId := ownerId v;
               columns := columns v; createdAt := createdAt v;
               updatedAt := now env; deletedAt := deletedAt v |})), db'))
  /\ (forall t, deletedAt v = Some t ->
        exists db' deleted,
          delete_vehicle decl env (Some u) X db
          = (Resolved (json 200 (MessageJson "Vehicle soft deleted successfully"
                                             (uuid v))), db')
          /\ lookup_uuid X (vehiclesTable db') = Some deleted
          /\ deletedAt deleted = Some (now env)
          /\ same_but_marks v deleted).
Proof.
  intros Hv Hown. split.
  - intros Hactive. eexists.
    rewrite (restore_vehicle_by_owner _ _ _ _ _ _ Hv Hown).
    unfold apply_set. simpl. rewrite Hactive. reflexivity.
  - intros t _. eexists _, _.
    split; [apply (delete_vehicle_by_owner _ _ _ _ _ _ Hv Hown)|].
    cbn [vehiclesTable]. rewrite lookup_uuid_apply_set by reflexivity.
    rewrite Hv. split; [reflexivity|]. split; [reflexivity|]. repeat split.
Qed.

Lemma delete_restore_ignore_current_state_witness :
  (exists db',
     restore_vehicle Sample.decl Sample.at_30 (Some Sample.bob) "b"
                     Sample.one_deleted
     = (Resolved (json 200 (RestoredJson
          {| id := 2; uuid := "b"; vin := "WVWZZZ2"; ownerId := "2";
             columns := ∅; createdAt := 10; updatedAt := 30;
             deletedAt := None |})), db'))
  /\ (exists db' deleted,
        delete_vehicle Sample.decl Sample.at_30 (Some Sample.alice) "a"
                       Sample.one_deleted
        = (Resolved (json 200 (MessageJson "Vehicle soft deleted successfully"
                                           "a")), db')
        /\ lookup_uuid "a" (vehiclesTable db') = Some deleted
        /\ deletedAt deleted = Some 30
        /\ same_but_marks (Sample.car 1 "a" "WVWZZZ1" "1" (Some 20)) deleted).
Proof.
  split.
  - apply (proj1 (delete_restore_ignore_current_state Sample.decl Sample.at_30
                    Sample.one_deleted Sample.bob "b"
                    (Sample.car 2 "b" "WVWZZZ2" "2" None) eq_refl eq_refl)).
    reflexivity.
  - apply (proj2 (delete_restore_ignore_current_state Sample.decl Sample.at_30
                    Sample.one_deleted Sample.alice "a"
                    (Sample.car 1 "a" "WVWZZZ1" "1" (Some 20)) eq_refl eq_refl)
                 20).
    reflexivity.
Defined.

(** X12. After a soft-delete by the owner, no caller's list shows a row
    with the UUID, while the owner's fetch by UUID still answers 200 with
    the row, now carrying the time of the soft-delete in [deletedAt]. *)
Theorem deleted_vehicle_unlisted_but_fetched
  (decl : VehiclesDecl) (env : Env) (db : Db) (u : User) (X : string)
  (v : Vehicle) :
  lookup_uuid X (vehiclesTable db) = Some v ->
  ownerId v = user_id u ->
  let db1 := snd (delete_vehicle decl env (Some u) X db) in
  (forall caller, exists vehicles,
      get_vehicles (Some caller) db1
      = (Resolved (json 200 (VehiclesJson vehicles)), db1)
      /\ forall r, In r vehicles -> uuid r <> X)
  /\ (exists deleted,
        get_vehicle (Some u) X db1
        = (Resolved (json 200 (VehicleJson deleted)), db1)
        /\ deletedAt deleted = Some (now env)
        /\ same_but_marks v deleted).
Proof.
  intros Hv Hown db1.
  assert (Hdb1 : db1 = mkDb (map (apply_set decl env (softDeleteVehicle env))
                                 (vehiclesTable db))
                            (ownershipTransfersTable db)).
  { unfold db1. rewrite (delete_vehicle_by_owner _ _ _ _ _ _ Hv Hown).
    reflexivity. }
  split.
  - intros caller. rewrite get_vehicles_outcome. eexists. split; [reflexivity|].
    intros r Hr. exfalso. apply filter_In in Hr. destruct Hr as [Hin Hm].
    rewrite Hdb1 in Hin. cbn [vehiclesTable] in Hin.
    apply in_map_iff in Hin. destruct Hin as (r0 & <- & _).
    rewrite andb_comm in Hm. discriminate.
  - rewrite get_vehicle_outcome.
    assert (Hv1 : lookup_uuid X (vehiclesTable db1)
                  = Some (apply_set decl env (softDeleteVehicle env) v)).
    { rewrite Hdb1. cbn [vehiclesTable].
      rewrite lookup_uuid_apply_set by reflexivity. rewrite Hv. reflexivity. }
    rewrite Hv1. cbn [allowed]. simpl ownerId.
    rewrite Hown, String.eqb_refl, orb_true_r.
    eexists. split; [reflexivity|]. split; [reflexivity|]. repeat split.
Qed.

Lemma deleted_vehicle_unlisted_but_fetched_witness :
  let db1 := snd (delete_vehicle Sample.decl Sample.at_30 (Some Sample.alice)
                                 "a" Sample.two_active) in
  (forall caller, exists vehicles,
      get_vehicles (Some caller) db1
      = (Resolved (json 200 (VehiclesJson vehicles)), db1)
      /\ forall r, In r vehicles -> uuid r <> "a")
  /\ (exists deleted,
        get_vehicle (Some Sample.alice) "a" db1
        = (Resolved (json 200 (VehicleJson deleted)), db1)
        /\ deletedAt deleted = Some 30
        /\ same_but_marks (Sample.car 1 "a" "WVWZZZ1" "1" None) deleted).
Proof.
  exact (deleted_vehicle_unlisted_but_fetched Sample.decl Sample.at_30
           Sample.two_active Sample.alice "a"
           (Sample.car 1 "a" "WVWZZZ1" "1" None) eq_refl eq_refl).
Defined.

(** X13. After a soft-delete and a restore, both by the owner, the
    owner's list shows the vehicle again: the restored record, with
    [deletedAt] null, is among the rows the list returns, whatever the
    owner's role. *)
Theorem restored_vehicle_listed_again
  (decl : VehiclesDecl) (env1 env2 : Env) (db : Db) (u : User) (X : string)
  (v : Vehicle) :
  lookup_uuid X (vehiclesTable db) = Some v ->
  ownerId v = user_id u ->
  let restored :=
    {| id := id v; uuid := uuid v; vin := vin v; ownerId := ownerId v;
       columns := columns v; createdAt := createdAt v;
       updatedAt := now env2; deletedAt := None |} in
  let db2 := snd (restore_vehicle decl env2 (Some u) X
                    (snd (delete_vehicle decl env1 (Some u) X db))) in
  exists vehicles,
    get_vehicles (Some u) db2
    = (Resolved (json 200 (VehiclesJson vehicles)), db2)
    /\ In restored vehicles.
Proof.
  intros Hv Hown restored db2.
  destruct (delete_then_restore_by_owner decl env1 env2 db u X v Hv Hown)
    as [_ Hlook]. cbv zeta in Hlook. fold restored in Hlook. fold db2 in Hlook.
  rewrite get_vehicles_outcome. eexists. split; [reflexivity|].
  apply filter_In. split; [apply (lookup_uuid_In _ _ _ Hlook)|].
  simpl. rewrite Hown, String.eqb_refl.
  destruct (String.eqb (role u) "user"); reflexivity.
Qed.

Lemma restored_vehicle_listed_again_witness :
  let db2 := snd (restore_vehicle Sample.decl Sample.at_40 (Some Sample.alice) "a"
                    (snd (delete_vehicle Sample.decl Sample.at_30
                            (Some Sample.alice) "a" Sample.two_active))) in
  exists vehicles,
    get_vehicles (Some Sample.alice) db2
    = (Resolved (json 200 (VehiclesJson vehicles)), db2)
    /\ In {| id := 1; uuid := "a"; vin := "WVWZZZ1"; ownerId := "1";
             columns := ∅; createdAt := 10; updatedAt := 40;
             deletedAt := None |} vehicles.
Proof.
  exact (restored_vehicle_listed_again Sample.decl Sample.at_30 Sample.at_40
           Sample.two_active Sample.alice "a"
           (Sample.car 1 "a" "WVWZZZ1" "1" None) eq_refl eq_refl).
Defined.

Lemma NoDup_snoc {A} (l : list A) (x : A) :
  NoDup l -> ~ In x l -> NoDup (l ++ [x]).
Proof.
  induction l as [|a l IH]; simpl; intros Hnd Hx.
  - constructor; [intros [] | constructor].
  - inversion Hnd as [|y l' Hnotin Hnd']; subst. constructor.
    + intros Hin. apply in_app_or in Hin. destruct Hin as [Hin | [<- | []]].
      * exact (Hnotin Hin).
      * apply Hx. left. reflexivity.
    + apply IH; [exact Hnd' | intros Hin; apply Hx; right; exact Hin].
Qed.

Lemma with_vin_nil v tbl :
  (forall r, In r tbl -> vin r <> v) -> with_vin v tbl = [].
Proof.
  intros Hnone. destruct (with_vin v tbl) as [|a l] eqn:Hw; [reflexivity|].
  assert (Ha : In a (with_vin v tbl)) by (rewrite Hw; left; reflexivity).
  apply with_vin_In in Ha. destruct Ha as [Ha Hv]. destruct (Hnone a Ha Hv).
Qed.

(** Create with a VIN no row carries, as an equation. *)
Lemma post_vehicles_new_vin decl env db u vehicle :
  (forall r, In r (vehiclesTable db) -> vin r <> insert_vin vehicle) ->
  post_vehicles decl env (Some u) vehicle db =
  (Resolved (json 201 (CreatedJson (inserted_row env (validatedVehicle u vehicle)))),
   mkDb (vehiclesTable db ++ [inserted_row env (validatedVehicle u vehicle)])
        (ownershipTransfersTable db)).
Proof.
  intros Hnone. pose proof (with_vin_nil _ _ Hnone) as Hnil.
  rewrite post_vehicles_inserts by (rewrite Hnil; reflexivity).
  rewrite Hnil. reflexivity.
Qed.

(** X14. A vehicle just created can be fetched and is listed: after a
    create with a VIN no row carries, when the UUID the store generated is
    unused, the creator's fetch by that UUID answers 200 with the created
    row, and the creator's list contains it. *)
Theorem created_vehicle_fetched_and_listed
  (decl : VehiclesDecl) (env : Env) (db : Db) (u : User)
  (vehicle : VehicleInsert) :
  (forall r, In r (vehiclesTable db) -> vin r <> insert_vin vehicle) ->
  ~ In (randomUUID env) (map uuid (vehiclesTable db)) ->
  let created := inserted_row env (validatedVehicle u vehicle) in
  let db1 := snd (post_vehicles decl env (Some u) vehicle db) in
  get_vehicle (Some u) (randomUUID env) db1
  = (Resolved (json 200 (VehicleJson created)), db1)
  /\ exists vehicles,
       get_vehicles (Some u) db1
       = (Resolved (json 200 (VehiclesJson vehicles)), db1)
       /\ In created vehicles.
Proof.
  intros Hnone Hfresh created db1.
  assert (Hdb1 : vehiclesTable db1 = (vehiclesTable db ++ [created])%list).
  { unfold db1. rewrite (post_vehicles_new_vin _ _ _ _ _ Hnone). reflexivity. }
  split.
  - rewrite get_vehicle_outcome, Hdb1.
    rewrite (lookup_uuid_app_fresh _ _ created Hfresh eq_refl).
    cbn [allowed]. unfold created at 1. simpl ownerId.
    rewrite String.eqb_refl, orb_true_r. reflexivity.
  - rewrite get_vehicles_outcome. eexists. split; [reflexivity|].
    apply filter_In. rewrite Hdb1. split.
    + apply in_or_app. right. left. reflexivity.
    + simpl. rewrite String.eqb_refl.
      destruct (String.eqb (role u) "user"); reflexivity.
Qed.

Lemma created_vehicle_fetched_and_listed_witness :
  let created :=
    {| id := 3; uuid := "c"; vin := "WVWZZZ3"; ownerId := "1"; columns := ∅;
       createdAt := 30; updatedAt := 30; deletedAt := None |} in
  let db1 := snd (post_vehicles Sample.decl Sample.at_30 (Some Sample.alice)
                    {| insert_vin := "WVWZZZ3"; insert_columns := ∅ |}
                    Sample.two_active) in
  get_vehicle (Some Sample.alice) "c" db1
  = (Resolved (json 200 (VehicleJson created)), db1)
  /\ exists vehicles,
       get_vehicles (Some Sample.alice) db1
       = (Resolved (json 200 (VehiclesJson vehicles)), db1)
       /\ In created vehicles.
Proof.
  apply (created_vehicle_fetched_and_listed Sample.decl Sample.at_30
           Sample.two_active Sample.alice
           {| insert_vin := "WVWZZZ3"; insert_columns := ∅ |}).
  - simpl. intros r [<- | [<- | []]]; discriminate.
  - simpl. intros [H | [H | []]]; discriminate.
Defined.

(** X15. A VIN changes hands.  In a table keyed by [id], with a VIN no
    row carries and unused generated id and UUID: user A creates the
    vehicle (201), A soft-deletes it (200), and another user B creates a
    vehicle with the same VIN.  B is answered 200 [restored: true] with
    A's row, same id and UUID, now owned by B and not soft-deleted, and
    the transfers table has gained exactly one record, from A to B. *)
Theorem vin_changes_hands
  (decl : VehiclesDecl) (env1 env2 env3 : Env) (db : Db) (a b : User)
  (vehicle vehicle' : VehicleInsert) :
  NoDup (map id (vehiclesTable db)) ->
  ~ In (generatedId env1) (map id (vehiclesTable db)) ->
  ~ In (randomUUID env1) (map uuid (vehiclesTable db)) ->
  (forall r, In r (vehiclesTable db) -> vin r <> insert_vin vehicle) ->
  insert_vin vehicle' = insert_vin vehicle ->
  user_id a <> user_id b ->
  exists created db1 db2 restored db3,
    post_vehicles decl env1 (Some a) vehicle db
    = (Resolved (json 201 (CreatedJson created)), db1)
    /\ delete_vehicle decl env2 (Some a) (uuid created) db1
       = (Resolved (json 200 (MessageJson "Vehicle soft deleted successfully"
                                          (uuid created))), db2)
    /\ post_vehicles decl env3 (Some b) vehicle' db2
       = (Resolved (json 200 (RestoredJson restored)), db3)
    /\ id restored = id created /\ uuid restored = uuid created
    /\ vin restored = insert_vin vehicle
    /\ ownerId restored = user_id b /\ deletedAt restored = None
    /\ ownershipTransfersTable db3 =
       (ownershipTransfersTable db ++
          [ {| vehicleId := Some (id created); transferVin := None;
               fromUserId := user_id a; toUserId := user_id b;
               transferredAt := now env3 |} ])%list.
Proof.
  intros Hkey Hid Huuid Hnone Hvin Hab.
  set (created := inserted_row env1 (validatedVehicle a vehicle)).
  set (sd := apply_set decl env2 (softDeleteVehicle env2)).
  set (tbl1 := (vehiclesTable db ++ [created])%list).
  set (db1 := mkDb tbl1 (ownershipTransfersTable db)).
  set (db2 := mkDb (map sd tbl1) (ownershipTransfersTable db)).
  assert (Hlook : lookup_uuid (uuid created) (vehiclesTable db1) = Some created).
  { apply lookup_uuid_app_fresh; [exact Huuid | reflexivity]. }
  assert (Hfind : find_deleted (with_vin (insert_vin vehicle')
                                         (vehiclesTable db2))
                  = Some (sd created)).
  { unfold db2, tbl1. cbn [vehiclesTable]. unfold with_vin, sd.
    rewrite filter_map_stable by (intros x; reflexivity).
    rewrite filter_app. fold (with_vin (insert_vin vehicle') (vehiclesTable db)).
    rewrite Hvin, (with_vin_nil _ _ Hnone). simpl.
    rewrite String.eqb_refl. reflexivity. }
  assert (Hkey2 : NoDup (map id (vehiclesTable db2))).
  { unfold db2, tbl1, sd. cbn [vehiclesTable].
    rewrite map_id_apply_set, map_app.
    simpl. apply NoDup_snoc; assumption. }
  exists created, db1, db2, (reactivated env3 b (sd created)).
  eexists.
  split; [apply (post_vehicles_new_vin _ _ _ _ _ Hnone)|].
  split; [apply (delete_vehicle_by_owner decl env2 db1 a _ created Hlook);
          reflexivity|].
  split; [apply (post_vehicles_reactivates decl env3 db2 b vehicle' _ Hkey2 Hfind)|].
  repeat (split; [reflexivity|]).
  cbn [ownershipTransfersTable]. unfold sd, created. simpl ownerId.
  rewrite (string_eqb_neq _ _ Hab). reflexivity.
Qed.

Lemma vin_changes_hands_witness :
  exists created db1 db2 restored db3,
    post_vehicles Sample.decl Sample.at_30 (Some Sample.alice)
                  {| insert_vin := "WVWZZZ3"; insert_columns := ∅ |}
                  Sample.two_active
    = (Resolved (json 201 (CreatedJson created)), db1)
    /\ delete_vehicle Sample.decl Sample.at_40 (Some Sample.alice)
                      (uuid created) db1
       = (Resolved (json 200 (MessageJson "Vehicle soft deleted successfully"
                                          (uuid created))), db2)
    /\ post_vehicles Sample.decl Sample.at_40 (Some Sample.bob)
                     {| insert_vin := "WVWZZZ3"; insert_columns := ∅ |} db2
       = (Resolved (json 200 (RestoredJson restored)), db3)
    /\ id restored = id created /\ uuid restored = uuid created
    /\ vin restored = "WVWZZZ3"
    /\ ownerId restored = "2" /\ deletedAt restored = None
    /\ ownershipTransfersTable db3 =
       [ {| vehicleId := Some (id created); transferVin := None;
            fromUserId := "1"; toUserId := "2"; transferredAt := 40 |} ].
Proof.
  apply (vin_changes_hands Sample.decl Sample.at_30 Sample.at_40 Sample.at_40
           Sample.two_active Sample.alice Sample.bob
           {| insert_vin := "WVWZZZ3"; insert_columns := ∅ |}
           {| insert_vin := "WVWZZZ3"; insert_columns := ∅ |}).
  - simpl. repeat constructor; simpl; intuition discriminate.
  - simpl. intros [H | [H | []]]; discriminate.
  - simpl. intros [H | [H | []]]; discriminate.
  - simpl. intros r [<- | [<- | []]]; discriminate.
  - reflexivity.
  - discriminate.
Defined.

(** X16. A reactivation takes the vehicle away from everyone else.  In a
    table keyed by [id], after caller B's create has reactivated the
    soft-deleted row fetched for its UUID, a caller A who is neither B nor
    an admin is answered 401 by fetch, update, soft-delete and restore of
    that UUID, and none of them writes. *)
Theorem reactivation_locks_out_others
  (decl : VehiclesDecl) (env env' : Env) (db : Db) (a b : User)
  (vehicle : VehicleInsert) (vehicleBody : VehiclePatch) (d : Vehicle) :
  NoDup (map id (vehiclesTable db)) ->
  find_deleted (with_vin (insert_vin vehicle) (vehiclesTable db)) = Some d ->
  lookup_uuid (uuid d) (vehiclesTable db) = Some d ->
  user_id a <> user_id b ->
  role a <> "admin" ->
  let db1 := snd (post_vehicles decl env (Some b) vehicle db) in
  get_vehicle (Some a) (uuid d) db1
  = (Resolved (json 401 (ErrorJson "Unauthorized")), db1)
  /\ patch_vehicle decl env' (Some a) (uuid d) vehicleBody db1
     = (Resolved (json 401 (ErrorJson "Unauthorized")), db1)
  /\ delete_vehicle decl env' (Some a) (uuid d) db1
     = (Resolved (json 401 (ErrorJson "Unauthorized")), db1)
  /\ restore_vehicle decl env' (Some a) (uuid d) db1
     = (Resolved (json 401 (ErrorJson "Unauthorized")), db1).
Proof.
  intros Hkey Hfind Hlook Hab Hrole db1.
  assert (Hlook1 : lookup_uuid (uuid d) (vehiclesTable db1)
                   = Some (reactivated env b d)).
  { unfold db1. rewrite (post_vehicles_reactivates _ _ _ _ _ _ Hkey Hfind).
    cbn [snd vehiclesTable]. apply lookup_uuid_reactivated. exact Hlook. }
  assert (Hown : String.eqb (ownerId (reactivated env b d)) (user_id a) = false).
  { apply string_eqb_neq. simpl. apply not_eq_sym. exact Hab. }
  rewrite get_vehicle_outcome, patch_vehicle_outcome, delete_vehicle_outcome,
    restore_vehicle_outcome, Hlook1.
  cbn [allowed]. rewrite Hown, (string_eqb_neq _ _ Hrole).
  repeat split.
Qed.

Lemma reactivation_locks_out_others_witness :
  let db1 := snd (post_vehicles Sample.decl Sample.at_30 (Some Sample.bob)
                    {| insert_vin := "WVWZZZ1"; insert_columns := ∅ |}
                    Sample.one_deleted) in
  get_vehicle (Some Sample.alice) "a" db1
  = (Resolved (json 401 (ErrorJson "Unauthorized")), db1)
  /\ patch_vehicle Sample.decl Sample.at_40 (Some Sample.alice) "a"
       {| patch_vin := None; patch_ownerId := None;
          patch_deletedAt := None; patch_columns := ∅ |} db1
     = (Resolved (json 401 (ErrorJson "Unauthorized")), db1)
  /\ delete_vehicle Sample.decl Sample.at_40 (Some Sample.alice) "a" db1
     = (Resolved (json 401 (ErrorJson "Unauthorized")), db1)
  /\ restore_vehicle Sample.decl Sample.at_40 (Some Sample.alice) "a" db1
     = (Resolved (json 401 (ErrorJson "Unauthorized")), db1).
Proof.
  apply (reactivation_locks_out_others Sample.decl Sample.at_30 Sample.at_40
           Sample.one_deleted Sample.alice Sample.bob
           {| insert_vin := "WVWZZZ1"; insert_columns := ∅ |}
           {| patch_vin := None; patch_ownerId := None;
              patch_deletedAt := None; patch_columns := ∅ |}
           (Sample.car 1 "a" "WVWZZZ1" "1" (Some 20))).
  - simpl. repeat constructor; simpl; intuition discriminate.
  - reflexivity.
  - reflexivity.
  - discriminate.
  - discriminate.
Defined.

Lemma get_vehicles_other_role_witness :
  get_vehicles (Some {| user_id := "7"; role := "guest" |}) Sample.one_deleted
  = (Resolved (json 200 (VehiclesJson [Sample.car 2 "b" "WVWZZZ2" "2" None])),
     Sample.one_deleted).
Proof.
  apply (get_vehicles_other_role Sample.one_deleted
           {| user_id := "7"; role := "guest" |}).
  discriminate.
Defined.

(** ** The sidebar group *)

Lemma append_inj_r (p a b : string) :
  String.append p a = String.append p b -> a = b.
Proof.
  induction p as [|c p IH]; simpl; [trivial|]. intros [= H]. apply IH. exact H.
Qed.

Lemma fullHref_inj isFooter vehicleId (a b : NavGroup.Item) :
  NavGroup.fullHref isFooter vehicleId a = NavGroup.fullHref isFooter vehicleId b ->
  NavGroup.url a = NavGroup.url b.
Proof.
  unfold NavGroup.fullHref. destruct isFooter; [trivial|].
  intros H. apply append_inj_r in H. apply append_inj_r in H. exact H.
Qed.

(** X17. The sidebar's effect and its rendering agree: the title the
    effect stores in [pathnameAtom] is the text of the first menu entry
    rendered active, and when no entry is rendered active the atom keeps
    its value. *)
Theorem nav_effect_is_first_active_entry
  (isFooter : bool) (vehicleId : option string) (currentPathname : string)
  (items : list NavGroup.Item) (pathname : string) :
  NavGroup.effect isFooter vehicleId currentPathname items pathname
  = match List.filter NavGroup.isActive
                      (NavGroup.menu isFooter vehicleId currentPathname items)
    with
    | entry :: _ => NavGroup.text entry
    | [] => pathname
    end.
Proof.
  unfold NavGroup.effect, NavGroup.activeItem, NavGroup.menu.
  induction items as [|a items IH]; simpl; [reflexivity|].
  destruct (String.eqb currentPathname (NavGroup.fullHref isFooter vehicleId a));
    [reflexivity | exact IH].
Qed.

(** X18. When the items of a sidebar group have pairwise different URLs,
    at most one menu entry is rendered active, whatever the current path
    and whether or not the group is the footer. *)
Theorem nav_at_most_one_active
  (isFooter : bool) (vehicleId : option string) (currentPathname : string)
  (items : list NavGroup.Item) :
  NoDup (map NavGroup.url items) ->
  (length (List.filter NavGroup.isActive
             (NavGroup.menu isFooter vehicleId currentPathname items)) <= 1)%nat.
Proof.
  unfold NavGroup.menu. induction items as [|a items IH]; simpl; [lia|].
  intros Hnd. inversion Hnd as [|x l Hnotin Hnd']; subst.
  specialize (IH Hnd').
  destruct (String.eqb_spec currentPathname
              (NavGroup.fullHref isFooter vehicleId a)) as [Ha|_];
    [|exact IH].
  simpl.
  replace (List.filter NavGroup.isActive
             (map (fun item =>
                     {| NavGroup.text := NavGroup.title item;
                        NavGroup.to := NavGroup.fullHref isFooter vehicleId item;
                        NavGroup.isActive :=
                          String.eqb currentPathname
                            (NavGroup.fullHref isFooter vehicleId item) |})
                  items))
    with (@nil NavGroup.Entry); [simpl; lia|].
  symmetry. clear IH Hnd Hnd'.
  induction items as [|b items IHb]; simpl; [reflexivity|].
  destruct (String.eqb_spec currentPathname
              (NavGroup.fullHref isFooter vehicleId b)) as [Hb|_].
  - exfalso. apply Hnotin. left. symmetry. apply (fullHref_inj isFooter vehicleId).
    rewrite <- Ha, <- Hb. reflexivity.
  - apply IHb. intros Hin. apply Hnotin. right. exact Hin.
Qed.

Lemma nav_at_most_one_active_witness :
  (length (List.filter NavGroup.isActive
             (NavGroup.menu false (Some "v1") "/app/v1/sensors"
                [ {| NavGroup.title := "Dashboard"; NavGroup.url := "/" |};
                  {| NavGroup.title := "Sensors"; NavGroup.url := "/sensors" |};
                  {| NavGroup.title := "Diagnostics";
                     NavGroup.url := "/diagnostics" |} ])) <= 1)%nat.
Proof.
  apply nav_at_most_one_active.
  simpl. repeat constructor; simpl; intuition discriminate.
Defined.

(** ** The default diagnostic session *)

Lemma sortedDiagnostics_head (data : list Diagnostics.Session) :
  data <> [] ->
  exists before newest after rest,
    data = (before ++ newest :: after)%list
    /\ Diagnostics.sortedDiagnostics data = newest :: rest
    /\ (forall x, In x data ->
          Diagnostics.createdAt x <= Diagnostics.createdAt newest)
    /\ (forall x, In x before ->
          Diagnostics.createdAt x < Diagnostics.createdAt newest).
Proof.
  induction data as [|a data IH]; [intros H; destruct H; reflexivity|].
  intros _. destruct data as [|b data].
  - exists [], a, [], []. split; [reflexivity|]. split; [reflexivity|].
    split; [intros x [<- | []]; lia | intros x []].
  - destruct IH as (before & newest & after & rest & Hdata & Hsort & Hmax & Hfirst);
      [discriminate|].
    change (Diagnostics.sortedDiagnostics (a :: b :: data))
      with (Diagnostics.insertNewest a (Diagnostics.sortedDiagnostics (b :: data))).
    rewrite Hsort. simpl.
    destruct (Z.leb_spec (Diagnostics.createdAt newest) (Diagnostics.createdAt a))
      as [Hle | Hlt].
    + exists [], a, (b :: data), (newest :: rest).
      split; [reflexivity|]. split; [reflexivity|]. split; [|intros x []].
      intros x [<- | Hx]; [lia|]. specialize (Hmax x Hx). lia.
    + exists (a :: before), newest, after, (Diagnostics.insertNewest a rest).
      split; [rewrite Hdata; reflexivity|]. split; [reflexivity|]. split.
      * intros x [<- | Hx]; [lia | apply Hmax; exact Hx].
      * intros x [<- | Hx]; [exact Hlt | apply Hfirst; exact Hx].
Qed.

(** X19. The diagnostics page picks a default session exactly when the
    sessions are loaded, there is at least one, and the URL selects none;
    the session it picks is the most recent one, and among sessions of
    the same most recent time the first in the loaded order. *)
Theorem selectDefault_picks_most_recent
  (isLoadingDiagnostics : bool)
  (diagnosticsData : option (list Diagnostics.Session))
  (selectedDiagnosticId : string) :
  (forall selected,
      Diagnostics.selectDefault isLoadingDiagnostics diagnosticsData
                                selectedDiagnosticId = Some selected ->
      isLoadingDiagnostics = false /\ selectedDiagnosticId = ""
      /\ exists data before newest after,
           diagnosticsData = Some data
           /\ data = (before ++ newest :: after)%list
           /\ Diagnostics.uuid newest = selected
           /\ (forall x, In x data ->
                 Diagnostics.createdAt x <= Diagnostics.createdAt newest)
           /\ (forall x, In x before ->
                 Diagnostics.createdAt x < Diagnostics.createdAt newest))
  /\ (forall data,
        isLoadingDiagnostics = false -> selectedDiagnosticId = "" ->
        diagnosticsData = Some data -> data <> [] ->
        exists selected,
          Diagnostics.selectDefault isLoadingDiagnostics diagnosticsData
                                    selectedDiagnosticId = Some selected).
Proof.
  split.
  - intros selected. unfold Diagnostics.selectDefault.
    destruct diagnosticsData as [data|]; [|discriminate].
    destruct isLoadingDiagnostics; [discriminate|]. simpl negb.
    destruct data as [|a data]; [discriminate|].
    destruct (String.eqb_spec selectedDiagnosticId "") as [Hsel|];
      [|rewrite andb_false_r; discriminate].
    destruct (sortedDiagnostics_head (a :: data))
      as (before & newest & after & rest & Hdata & Hsort & Hmax & Hfirst);
      [discriminate|].
    rewrite Hsort. simpl. intros [= <-].
    split; [reflexivity|]. split; [exact Hsel|].
    exists (a :: data), before, newest, after. auto.
  - intros data -> -> -> Hne. unfold Diagnostics.selectDefault.
    destruct (sortedDiagnostics_head data Hne)
      as (before & newest & after & rest & Hdata & Hsort & _).
    rewrite Hsort. destruct data as [|a data]; [destruct Hne; reflexivity|].
    simpl. eexists. reflexivity.
Qed.

Lemma selectDefault_picks_most_recent_witness :
  exists selected,
    Diagnostics.selectDefault false
      (Some [ {| Diagnostics.uuid := "s1"; Diagnostics.createdAt := 100 |};
              {| Diagnostics.uuid := "s2"; Diagnostics.createdAt := 300 |};
              {| Diagnostics.uuid := "s3"; Diagnostics.createdAt := 300 |} ])
      "" = Some selected.
Proof.
  apply (proj2 (selectDefault_picks_most_recent false
                  (Some [ {| Diagnostics.uuid := "s1"; Diagnostics.createdAt := 100 |};
                          {| Diagnostics.uuid := "s2"; Diagnostics.createdAt := 300 |};
                          {| Diagnostics.uuid := "s3"; Diagnostics.createdAt := 300 |} ])
                  "") _ eq_refl eq_refl eq_refl).
  discriminate.
Defined.

(** The insertion sort is a sort: it rearranges the sessions and puts
    them newest first. *)
Lemma insertNewest_perm a sorted :
  Permutation (Diagnostics.insertNewest a sorted) (a :: sorted).
Proof.
  induction sorted as [|b sorted IH]; simpl; [reflexivity|].
  destruct (Z.leb (Diagnostics.createdAt b) (Diagnostics.createdAt a));
    [reflexivity|].
  rewrite IH. apply perm_swap.
Qed.

Lemma sortedDiagnostics_perm data :
  Permutation (Diagnostics.sortedDiagnostics data) data.
Proof.
  induction data as [|a data IH]; simpl; [reflexivity|].
  rewrite insertNewest_perm, IH. reflexivity.
Qed.

Lemma insertNewest_sorted a sorted :
  StronglySorted (fun x y => Diagnostics.createdAt y <= Diagnostics.createdAt x)
                 sorted ->
  StronglySorted (fun x y => Diagnostics.createdAt y <= Diagnostics.createdAt x)
                 (Diagnostics.insertNewest a sorted).
Proof.
  induction sorted as [|b sorted IH]; simpl; intros Hs.
  - repeat constructor.
  - inversion Hs as [|x l Hs' Hall]; subst.
    destruct (Z.leb_spec (Diagnostics.createdAt b) (Diagnostics.createdAt a))
      as [Hle | Hlt].
    + constructor; [exact Hs|]. constructor; [exact Hle|].
      rewrite Forall_forall in Hall |- *. intros y Hy.
      specialize (Hall y Hy). simpl in Hall. lia.
    + constructor; [apply IH; exact Hs'|].
      rewrite Forall_forall in Hall |- *. intros y Hy.
      apply (Permutation_in _ (insertNewest_perm a sorted)) in Hy.
      destruct Hy as [<- | Hy]; [lia | apply Hall; exact Hy].
Qed.

Lemma sortedDiagnostics_sorted data :
  StronglySorted (fun x y => Diagnostics.createdAt y <= Diagnostics.createdAt x)
                 (Diagnostics.sortedDiagnostics data).
Proof.
  induction data as [|a data IH]; simpl; [constructor|].
  apply insertNewest_sorted. exact IH.
Qed.

(** ** Update: clearing [deletedAt] *)

(** X21. Update accepts [deletedAt] in its body, and restore's
    owner-only rule does not bind it: a caller who may update the vehicle
    (its owner, or any admin) and sends [deletedAt: null] without naming
    a VIN or an owner is answered 200 with the row no longer
    soft-deleted, and no transfer is logged; when that caller is not the
    owner, restore of the same UUID answers 401. *)
Theorem patch_vehicle_clears_deletedAt
  (decl : VehiclesDecl) (env : Env) (db : Db) (u : User) (X : string)
  (vehicleBody : VehiclePatch) (v : Vehicle) :
  lookup_uuid X (vehiclesTable db) = Some v ->
  role u = "admin" \/ ownerId v = user_id u ->
  patch_deletedAt vehicleBody = Some None ->
  patch_vin vehicleBody = None ->
  patch_ownerId vehicleBody = None ->
  (exists updated db',
      patch_vehicle decl env (Some u) X vehicleBody db
      = (Resolved (json 200 (VehicleJson updated)), db')
      /\ deletedAt updated = None
      /\ id updated = id v /\ uuid updated = uuid v /\ ownerId updated = ownerId v
      /\ lookup_uuid X (vehiclesTable db') = Some updated
      /\ ownershipTransfersTable db' = ownershipTransfersTable db)
  /\ (ownerId v <> user_id u ->
        restore_vehicle decl env (Some u) X db
        = (Resolved (json 401 (ErrorJson "Unauthorized")), db)).
Proof.
  intros Hv Hmay Hdel Hvin Hown.
  destruct (lookup_uuid_Some _ _ _ Hv) as [rest Hf]. split.
  - rewrite patch_vehicle_outcome, Hv.
    assert (Hallowed : allowed u (PATCH_vehicle X vehicleBody) v = true).
    { cbn [allowed]. destruct Hmay as [-> | ->].
      - reflexivity.
      - rewrite String.eqb_refl. apply orb_true_r. }
    rewrite Hallowed. unfold changes_owner. rewrite Hown.
    unfold patch_apply, await.
    rewrite update_vehicles_keeps_vin;
      [|unfold no_values; simpl; rewrite Hvin, Hown, Hdel;
        destruct (bool_decide _); reflexivity
       | exact Hvin].
    cbn [vehiclesTable ownershipTransfersTable]. rewrite Hf. cbn [map].
    eexists _, _. split; [reflexivity|].
    split; [simpl; rewrite Hdel; reflexivity|].
    split; [reflexivity|]. split; [reflexivity|].
    split; [simpl; rewrite Hown; reflexivity|].
    split; [|reflexivity].
    cbn [vehiclesTable]. unfold lookup_uuid.
    rewrite (filter_map_where (matches (Some (eq_uuid X))))
      by (intros x; apply apply_set_keeps_uuid; reflexivity).
    rewrite Hf. reflexivity.
  - intros Hne. rewrite restore_vehicle_outcome, Hv. cbn [allowed].
    rewrite (string_eqb_neq _ _ Hne). reflexivity.
Qed.

Lemma patch_vehicle_clears_deletedAt_witness :
  (exists updated db',
      patch_vehicle Sample.decl Sample.at_30 (Some Sample.root) "a"
        {| patch_vin := None; patch_ownerId := None;
           patch_deletedAt := Some None; patch_columns := ∅ |}
        Sample.one_deleted
      = (Resolved (json 200 (VehicleJson updated)), db')
      /\ deletedAt updated = None
      /\ id updated = 1 /\ uuid updated = "a" /\ ownerId updated = "1"
      /\ lookup_uuid "a" (vehiclesTable db') = Some updated
      /\ ownershipTransfersTable db' = [])
  /\ restore_vehicle Sample.decl Sample.at_30 (Some Sample.root) "a"
                     Sample.one_deleted
     = (Resolved (json 401 (ErrorJson "Unauthorized")), Sample.one_deleted).
Proof.
  destruct (patch_vehicle_clears_deletedAt Sample.decl Sample.at_30
              Sample.one_deleted Sample.root "a"
              {| patch_vin := None; patch_ownerId := None;
                 patch_deletedAt := Some None; patch_columns := ∅ |}
              (Sample.car 1 "a" "WVWZZZ1" "1" (Some 20))
              eq_refl (or_introl eq_refl) eq_refl eq_refl eq_refl)
    as [Hpatch Hrestore].
  split; [exact Hpatch|]. apply Hrestore. discriminate.
Defined.
